(** * BIND Exchange: a shallow embedding of the exchange service

    The development follows the layout of the repository:
    - [constants.ts]        the tier limits and cryptographic parameters;
    - [lib/crypto.ts]       identifier generation, JWE header validation, hashing;
    - [lib/passcode.ts]     the two PBKDF2 passcode modules (noble-hashes and WebCrypto);
    - [lib/verify.ts]       verification of the proof JWT against the trust gateway;
    - [lib/storage.ts]      the KV and R2 accessors;
    - [routes/exchange.ts]  the two request handlers.

    Strings are sequences of 8-bit code units; a [Uint8Array] is a [list byte].
    Functions of third-party libraries and of the platform (jose, PBKDF2,
    SHA-256, TextEncoder, URL) are fields of a [Platform] record. *)

From Stdlib Require Import ZArith NArith Ascii String List Lia Bool.
From Stdlib.Strings Require Import Byte.
From stdpp Require Import gmap strings list fin_maps pretty.

Import ListNotations.
Open Scope string_scope.
Open Scope Z_scope.

(** ** JavaScript values and exceptions *)

(** A thrown [Error]: its constructor name and its message. *)
Inductive JsError : Type :=
| Thrown (name message : string).

Definition error_message (e : JsError) : string :=
  match e with Thrown _ m => m end.

(** The outcome of a computation that may throw. *)
Inductive result (A : Type) : Type :=
| Ok (a : A)
| Err (e : JsError).

Arguments Ok {A} a.
Arguments Err {A} e.

#[global] Instance result_ret : MRet result := fun A a => Ok a.

#[global] Instance result_bind : MBind result := fun A B k r =>
  match r with
  | Ok a => k a
  | Err e => Err e
  end.

(** Truthiness of an optional string: [undefined] and the empty string are falsy. *)
Definition truthy (o : option string) : bool :=
  match o with
  | None => false
  | Some EmptyString => false
  | Some (String _ _) => true
  end.

Definition option_string_eqb (a b : option string) : bool :=
  match a, b with
  | Some x, Some y => String.eqb x y
  | None, None => true
  | _, _ => false
  end.

(** The double quote character, for messages that quote a value. *)
Definition dquote : string := String "034"%char EmptyString.

(** Interpolation of an optional string in a template literal. *)
Definition interpolate (o : option string) : string :=
  match o with
  | Some s => s
  | None => "undefined"
  end.

(** ** constants.ts *)

Definition DEFAULT_EXPIRY_SECONDS : Z := 72 * 60 * 60.
Definition MAX_EXPIRY_SECONDS : Z := 366 * 24 * 60 * 60.
Definition MAX_ATTEMPTS : Z := 10.
Definition PASSCODE_LENGTH : nat := 6.
Definition PBKDF2_ITERATIONS : N := 310000.
Definition PBKDF2_SALT_LENGTH : nat := 16.
Definition EXCHANGE_ID_BYTES : nat := 32.
Definition R2_PREFIX : string := "exchanges".
Definition KV_PREFIX : string := "exchange".
Definition MAX_PAYLOAD_SIZE : Z := 5 * 1024 * 1024.
Definition UNTRUSTED_EXPIRY_SECONDS : Z := 60 * 60.
Definition UNTRUSTED_MAX_PAYLOAD_SIZE : Z := 10 * 1024.
Definition TRUST_GATEWAY_URL : string := "https://bind-pki.org".

(** ** Randomness

    [crypto.getRandomValues(new Uint8Array(n))] reads [n] bytes of the
    entropy source and leaves the rest for the next call. *)

Definition Entropy : Type := nat -> byte.

Definition getRandomValues (n : nat) (e : Entropy) : list byte * Entropy :=
  (map e (seq 0 n), fun i => e (n + i)%nat).

(** ** lib/crypto.ts *)

Definition b64_table : string :=
  "ABCDEFGHIJKLMNOPQRSTUVWXYZabcdefghijklmnopqrstuvwxyz0123456789+/".

Definition b64_digit (n : N) : ascii :=
  match String.get (N.to_nat n) b64_table with
  | Some c => c
  | None => "="%char
  end.

(** The 24-bit group of three input characters (RFC 4648, section 4). *)
Definition group24 (a b c : ascii) : N :=
  (N_of_ascii a * 65536 + N_of_ascii b * 256 + N_of_ascii c)%N.

Definition sextet (k : N) (g : N) : ascii :=
  b64_digit ((g / 2 ^ (6 * k)) mod 64)%N.

(** [btoa]: base64 with padding, on a binary string. *)
Fixpoint btoa (s : string) : string :=
  match s with
  | EmptyString => EmptyString
  | String a EmptyString =>
      let g := group24 a zero zero in
      String (sextet 3 g) (String (sextet 2 g) "==")
  | String a (String b EmptyString) =>
      let g := group24 a b zero in
      String (sextet 3 g) (String (sextet 2 g) (String (sextet 1 g) "="))
  | String a (String b (String c rest)) =>
      let g := group24 a b c in
      String (sextet 3 g) (String (sextet 2 g)
        (String (sextet 1 g) (String (sextet 0 g) (btoa rest))))
  end.

(** [s.replace(/c/g, d)] for single characters [c] and [d]. *)
Fixpoint replace_all (c d : ascii) (s : string) : string :=
  match s with
  | EmptyString => EmptyString
  | String x r => String (if Ascii.eqb x c then d else x) (replace_all c d r)
  end.

(** [s.replace(/=+$/, EmptyString)]: the trailing run of [=] is removed. *)
Fixpoint strip_padding (s : string) : string :=
  match s with
  | EmptyString => EmptyString
  | String x r =>
      match strip_padding r with
      | EmptyString => if Ascii.eqb x "=" then EmptyString else String x EmptyString
      | r' => String x r'
      end
  end.

(** [Array.from(bytes, (b) => String.fromCharCode(b)).join(EmptyString)] *)
Definition binString (bytes : list byte) : string :=
  string_of_list_ascii (map ascii_of_byte bytes).

Definition base64url (bytes : list byte) : string :=
  strip_padding (replace_all "/" "_" (replace_all "+" "-" (btoa (binString bytes)))).

Definition generateExchangeId (e : Entropy) : string * Entropy :=
  let '(bytes, e') := getRandomValues EXCHANGE_ID_BYTES e in
  (base64url bytes, e').

(** The alphabet of URL-safe base64. *)
Definition base64url_alphabet : string :=
  "ABCDEFGHIJKLMNOPQRSTUVWXYZabcdefghijklmnopqrstuvwxyz0123456789-_".

Definition in_base64url_alphabet (c : ascii) : bool :=
  existsb (Ascii.eqb c) (list_ascii_of_string base64url_alphabet).

(** ** Third-party and platform functions

    [decodeProtectedHeader], [decodeJwt] and [jwtVerify] are jose's; the
    last one receives the URL of the key set that [createRemoteJWKSet]
    fetches during verification. [pbkdf2_hmac_sha256 password salt c dkLen]
    is PBKDF2 (RFC 8018) with HMAC-SHA-256, [c] iterations and [dkLen]
    bytes of output: the function that both noble-hashes and WebCrypto
    implement. *)

Record ProtectedHeader : Type := {
  hdr_alg : option string;
  hdr_enc : option string;
  hdr_kid : option string;
}.

Record JWTPayload : Type := {
  jwt_iss : option string;
  jwt_sub : option string;
  jwt_iat : option Z;
}.

Record Platform : Type := {
  decodeProtectedHeader : string -> result ProtectedHeader;
  decodeJwt : string -> result JWTPayload;
  newURL : string -> string -> result string;
  jwtVerify : string -> string -> list string -> result JWTPayload;
  sha256 : list byte -> list byte;
  utf8_encode : string -> list byte;
  pbkdf2_hmac_sha256 : list byte -> list byte -> N -> N -> list byte;
}.

Section Crypto.
Context (P : Platform).

(** [validateJweHeader]: returns normally or throws. *)
Definition validateJweHeader (jwe : string) : result unit :=
  header ← decodeProtectedHeader P jwe;
  if negb (option_string_eqb (hdr_alg header) (Some "dir")) then
    Err (Thrown "Error"
           ("Invalid JWE alg: expected " +:+ dquote +:+ "dir" +:+ dquote +:+ ", got "
              +:+ dquote +:+ interpolate (hdr_alg header) +:+ dquote))
  else if negb (option_string_eqb (hdr_enc header) (Some "A256GCM")) then
    Err (Thrown "Error"
           ("Invalid JWE enc: expected " +:+ dquote +:+ "A256GCM" +:+ dquote +:+ ", got "
              +:+ dquote +:+ interpolate (hdr_enc header) +:+ dquote))
  else Ok tt.

Definition sha256Base64url (input : string) : string :=
  let data := utf8_encode P input in
  let hash := sha256 P data in
  base64url hash.

End Crypto.

(** ** lib/passcode.ts: helpers common to both modules *)

Definition hex_table : string := "0123456789abcdef".

Definition hex_char (n : N) : ascii :=
  match String.get (N.to_nat n) hex_table with
  | Some c => c
  | None => "0"%char
  end.

(** [n.toString(16)] for a byte value. *)
Definition toString16 (n : N) : string :=
  if (n <? 16)%N then String (hex_char n) EmptyString
  else String (hex_char (n / 16)) (String (hex_char (n mod 16)) EmptyString).

(** [s.padStart(len, c)] for a one-character filler. *)
Definition padStart (len : nat) (c : ascii) (s : string) : string :=
  string_of_list_ascii (repeat c (len - String.length s)) +:+ s.

Fixpoint concat_strings (l : list string) : string :=
  match l with
  | [] => EmptyString
  | s :: r => s +:+ concat_strings r
  end.

Definition toHex (bytes : list byte) : string :=
  concat_strings (map (fun b => padStart 2 "0" (toString16 (Byte.to_N b))) bytes).

(** White space and line terminators that [parseInt] skips, among the
    8-bit code units. *)
Definition is_StrWhiteSpaceChar (c : ascii) : bool :=
  let n := N_of_ascii c in
  ((n =? 9) || (n =? 10) || (n =? 11) || (n =? 12) || (n =? 13) || (n =? 32) || (n =? 160))%N.

Fixpoint trimStart (s : string) : string :=
  match s with
  | EmptyString => EmptyString
  | String c r => if is_StrWhiteSpaceChar c then trimStart r else s
  end.

Definition hex_digit_value (c : ascii) : option Z :=
  let n := Z.of_N (N_of_ascii c) in
  if (48 <=? n) && (n <=? 57) then Some (n - 48)
  else if (97 <=? n) && (n <=? 102) then Some (n - 87)
  else if (65 <=? n) && (n <=? 70) then Some (n - 55)
  else None.

(** The value of the longest prefix of hexadecimal digits; [None] when
    that prefix is empty. *)
Fixpoint parse_digits16 (s : string) (acc : option Z) : option Z :=
  match s with
  | EmptyString => acc
  | String c r =>
      match hex_digit_value c with
      | Some d => parse_digits16 r (Some (16 * default 0 acc + d))
      | None => acc
      end
  end.

(** [parseInt(s, 16)]; [None] is [NaN]. *)
Definition parseInt16 (s : string) : option Z :=
  let s1 := trimStart s in
  let '(sign, s2) :=
    match s1 with
    | String "-" r => (-1, r)
    | String "+" r => (1, r)
    | _ => (1, s1)
    end in
  let s3 :=
    match s2 with
    | String "0" (String "x" r) => r
    | String "0" (String "X" r) => r
    | _ => s2
    end in
  match parse_digits16 s3 None with
  | Some n => Some (sign * n)
  | None => None
  end.

(** Storing a number in a [Uint8Array]: [NaN] becomes 0, integers wrap. *)
Definition ToUint8 (v : option Z) : byte :=
  match v with
  | None => x00
  | Some z => byte_of_ascii (ascii_of_N (Z.to_N (z mod 256)))
  end.

(** The loop of [fromHex], two characters at a time. *)
Fixpoint fromHex_loop (hex : string) : list byte :=
  match hex with
  | String a (String b r) =>
      ToUint8 (parseInt16 (String a (String b EmptyString))) :: fromHex_loop r
  | _ => []
  end.

(** [fromHex]: reading [hex.length] of [undefined] throws.
    [new Uint8Array(hex.length / 2)] truncates a length that is not an
    integer, and a write past the end of the array is ignored: a string of
    odd length gives one byte for each complete pair of characters. *)
Definition fromHex (hex : option string) : result (list byte) :=
  match hex with
  | None => Err (Thrown "TypeError" "Cannot read properties of undefined (reading 'length')")
  | Some h => Ok (fromHex_loop h)
  end.

(** [s.split(c)] for a one-character separator. *)
Fixpoint split (c : ascii) (s : string) : list string :=
  match s with
  | EmptyString => [EmptyString]
  | String x r =>
      if Ascii.eqb x c then EmptyString :: split c r
      else match split c r with
           | h :: t => String x h :: t
           | [] => [String x EmptyString]
           end
  end.

Fixpoint bytes_eqb (a b : list byte) : bool :=
  match a, b with
  | [], [] => true
  | x :: a', y :: b' => Byte.eqb x y && bytes_eqb a' b'
  | _, _ => false
  end.

(** [crypto.subtle.timingSafeEqual]: throws on buffers of different lengths. *)
Definition timingSafeEqual (a b : list byte) : result bool :=
  if Nat.eqb (length a) (length b) then Ok (bytes_eqb a b)
  else Err (Thrown "TypeError" "Input buffers must have the same byte length").

(** [(b % 10).toString()] *)
Definition decimal_digit (b : byte) : ascii :=
  ascii_of_N (48 + Byte.to_N b mod 10).

(** The interface of [lib/passcode.ts]; [hashPasscode] and
    [generatePasscode] read the entropy source. *)
Record PasscodeModule : Type := {
  pm_hashPasscode : string -> Entropy -> string * Entropy;
  pm_verifyPasscode : string -> string -> result bool;
  pm_generatePasscode : Entropy -> string * Entropy;
}.

(** *** The module built on noble-hashes *)
Module Noble.
Section WithPlatform.
Context (P : Platform).

(** [pbkdf2(sha256, password, salt, { c, dkLen })]: a string password is
    encoded as UTF-8. *)
Definition pbkdf2 (password : string) (salt : list byte) (c dkLen : N) : list byte :=
  pbkdf2_hmac_sha256 P (utf8_encode P password) salt c dkLen.

Definition deriveKey (passcode : string) (salt : list byte) : list byte :=
  pbkdf2 passcode salt PBKDF2_ITERATIONS 32.

Definition hashPasscode (passcode : string) (e : Entropy) : string * Entropy :=
  let '(salt, e') := getRandomValues PBKDF2_SALT_LENGTH e in
  let hash := deriveKey passcode salt in
  (toHex salt +:+ ":" +:+ toHex hash, e').

Definition verifyPasscode (passcode stored : string) : result bool :=
  let parts := split ":" stored in
  let saltHex := parts !! 0%nat in
  let hashHex := parts !! 1%nat in
  salt ← fromHex saltHex;
  let hash := deriveKey passcode salt in
  expected ← fromHex hashHex;
  if negb (Nat.eqb (length expected) (length hash)) then Ok false
  else timingSafeEqual expected hash.

Definition generatePasscode (e : Entropy) : string * Entropy :=
  let '(bytes, e') := getRandomValues PASSCODE_LENGTH e in
  (string_of_list_ascii (map decimal_digit bytes), e').

Definition module : PasscodeModule :=
  {| pm_hashPasscode := hashPasscode;
     pm_verifyPasscode := verifyPasscode;
     pm_generatePasscode := generatePasscode |}.

End WithPlatform.
End Noble.

(** *** The module built on WebCrypto *)
Module WebCrypto.
Section WithPlatform.
Context (P : Platform).

(** [crypto.subtle.importKey] of raw key material for PBKDF2. *)
Definition importKey (raw : list byte) : list byte := raw.

(** [crypto.subtle.deriveBits] with PBKDF2 and SHA-256; [bits] is the
    output length in bits. *)
Definition deriveBits (salt : list byte) (iterations : N) (keyMaterial : list byte)
    (bits : N) : list byte :=
  pbkdf2_hmac_sha256 P keyMaterial salt iterations (bits / 8).

Definition deriveKey (passcode : string) (salt : list byte) : list byte :=
  let keyMaterial := importKey (utf8_encode P passcode) in
  deriveBits salt PBKDF2_ITERATIONS keyMaterial 256.

Definition hashPasscode (passcode : string) (e : Entropy) : string * Entropy :=
  let '(salt, e') := getRandomValues PBKDF2_SALT_LENGTH e in
  let hash := deriveKey passcode salt in
  (toHex salt +:+ ":" +:+ toHex hash, e').

Definition verifyPasscode (passcode stored : string) : result bool :=
  let parts := split ":" stored in
  let saltHex := parts !! 0%nat in
  let hashHex := parts !! 1%nat in
  salt ← fromHex saltHex;
  let hash := deriveKey passcode salt in
  expected ← fromHex hashHex;
  let actual := hash in
  if negb (Nat.eqb (length expected) (length actual)) then Ok false
  else timingSafeEqual expected actual.

Definition generatePasscode (e : Entropy) : string * Entropy :=
  let '(bytes, e') := getRandomValues PASSCODE_LENGTH e in
  (string_of_list_ascii (map decimal_digit bytes), e').

Definition module : PasscodeModule :=
  {| pm_hashPasscode := hashPasscode;
     pm_verifyPasscode := verifyPasscode;
     pm_generatePasscode := generatePasscode |}.

End WithPlatform.
End WebCrypto.

(** ** lib/verify.ts *)

Record VerificationResult : Type := {
  vr_trusted : bool;
  vr_iss : option string;
}.

Definition untrusted : VerificationResult :=
  {| vr_trusted := false; vr_iss := None |}.

Section Verify.
Context (P : Platform).

(** The body of the [try] block of [verifyExchangeProof]. *)
Definition verifyExchangeProof_try (jwe proof : string) : result VerificationResult :=
  header ← decodeProtectedHeader P proof;
  if negb (option_string_eqb (hdr_alg header) (Some "ES256")) then Ok untrusted
  else
    unverified ← decodeJwt P proof;
    let iss := jwt_iss unverified in
    if negb (truthy iss) then Ok untrusted
    else
      jwksUrl ← newURL P ("/" +:+ interpolate iss +:+ "/.well-known/jwks.json") TRUST_GATEWAY_URL;
      payload ← jwtVerify P proof jwksUrl ["ES256"];
      let expectedSub := sha256Base64url P jwe in
      if negb (option_string_eqb (jwt_sub payload) (Some expectedSub)) then Ok untrusted
      else Ok {| vr_trusted := true; vr_iss := iss |}.

(** [verifyExchangeProof]: the [catch] clause turns every exception
    into the untrusted result. *)
Definition verifyExchangeProof (jwe proof : string) : VerificationResult :=
  match verifyExchangeProof_try jwe proof with
  | Ok r => r
  | Err _ => untrusted
  end.

End Verify.

(** ** types.ts *)

Record ExchangeMetadata : Type := {
  passcodeHash : option string;
  exp : Z;
  attempts : Z;
  label : option string;
  createdAt : Z;
  trusted : bool;
  iss : option string;
}.

Record CreateExchangeRequest : Type := {
  cr_payload : string;
  cr_passcode : option string;
  cr_label : option string;
  cr_exp : option Z;
  cr_proof : option string;
}.

Record CreateExchangeResponse : Type := {
  res_url : string;
  res_exp : Z;
  res_flag : string;
  res_passcode : option string;
  res_trusted : bool;
  res_iss : option string;
}.

Record RetrieveManifestRequest : Type := {
  rm_recipient : string;
  rm_passcode : option string;
}.

Record ManifestFile : Type := {
  contentType : string;
  embedded : string;
}.

Record ManifestResponse : Type := {
  files : list ManifestFile;
}.

(** [ErrorSchema] of routes/exchange.ts. *)
Record ErrorResponse : Type := {
  error : string;
  remainingAttempts : option Z;
  authRequired : option bool;
}.

(** ** The storage collaborators

    A KV record is kept with the time of the write and its
    [expirationTtl] in seconds; it is no longer returned once the TTL has
    elapsed. Cloudflare KV refuses an [expirationTtl] below 60 seconds:
    [put] throws and nothing is written. The metadata is stored as JSON
    and parsed back: a field that is [undefined] is left out and is
    [undefined] again after parsing, so the stored value is the record
    itself. *)

(** The smallest [expirationTtl], in seconds, that KV accepts. *)
Definition KV_MINIMUM_TTL : Z := 60.

Record KVEntry : Type := {
  kv_value : ExchangeMetadata;
  kv_stored_at : Z;
  kv_expirationTtl : Z;
}.

Abbreviation KVNamespace := (gmap string KVEntry).
Abbreviation R2Bucket := (gmap string string).

Definition kv_alive (now : Z) (e : KVEntry) : bool :=
  now <? kv_stored_at e + kv_expirationTtl e * 1000.

Definition kv_put (kv : KVNamespace) (key : string) (value : ExchangeMetadata)
    (ttl now : Z) : result KVNamespace :=
  if ttl <? KV_MINIMUM_TTL then
    Err (Thrown "Error"
           ("KV PUT failed: 400 Invalid expiration_ttl of " +:+ pretty ttl
              +:+ ". Expiration TTL must be at least 60."))
  else
    Ok (<[key := {| kv_value := value; kv_stored_at := now; kv_expirationTtl := ttl |}]> kv).

Definition kv_get (kv : KVNamespace) (key : string) (now : Z) : option ExchangeMetadata :=
  match kv !! key with
  | Some e => if kv_alive now e then Some (kv_value e) else None
  | None => None
  end.

Definition kv_delete (kv : KVNamespace) (key : string) : KVNamespace :=
  delete key kv.

(** The bindings of the worker. *)
Record Bindings : Type := {
  EXCHANGE_KV : KVNamespace;
  EXCHANGE_BUCKET : R2Bucket;
}.

(** ** lib/storage.ts *)

Definition payload_key (id : string) : string :=
  R2_PREFIX +:+ "/" +:+ id +:+ "/payload.jwe".

Definition metadata_key (id : string) : string :=
  KV_PREFIX +:+ ":" +:+ id.

Definition storePayload (bucket : R2Bucket) (id jwe : string) : R2Bucket :=
  <[payload_key id := jwe]> bucket.

Definition loadPayload (bucket : R2Bucket) (id : string) : option string :=
  bucket !! payload_key id.

Definition deletePayload (bucket : R2Bucket) (id : string) : R2Bucket :=
  delete (payload_key id) bucket.

Definition storeMetadata (kv : KVNamespace) (id : string) (metadata : ExchangeMetadata)
    (ttlSeconds : Z) (now : Z) : result KVNamespace :=
  kv_put kv (metadata_key id) metadata ttlSeconds now.

Definition loadMetadata (kv : KVNamespace) (id : string) (now : Z) : option ExchangeMetadata :=
  kv_get kv (metadata_key id) now.

(** [updateMetadata]: [dateNow] is the reading of [Date.now()], [now] the
    time of the write. *)
Definition updateMetadata (kv : KVNamespace) (id : string) (metadata : ExchangeMetadata)
    (dateNow now : Z) : result KVNamespace :=
  let ttlSeconds := Z.max 1 ((exp metadata - dateNow) / 1000) in
  kv_put kv (metadata_key id) metadata ttlSeconds now.

Definition deleteMetadata (kv : KVNamespace) (id : string) : KVNamespace :=
  kv_delete kv (metadata_key id).

(** ** routes/exchange.ts *)

(** What a handler sends back: one of the JSON bodies of the route
    declarations, the validation failure of the request schema, or the
    answer of the framework to an exception the handler does not catch. *)
Inductive ResponseBody : Type :=
| CreateBody (r : CreateExchangeResponse)
| ManifestBody (r : ManifestResponse)
| ErrorBody (r : ErrorResponse)
| ValidationFailure
| InternalServerError (e : JsError).

Record Response : Type := {
  status : Z;
  body : ResponseBody;
}.

Definition json (b : ResponseBody) (code : Z) : Response :=
  {| status := code; body := b |}.

Definition error_only (msg : string) : ResponseBody :=
  ErrorBody {| error := msg; remainingAttempts := None; authRequired := None |}.

Definition optional {A : Type} (check : A -> bool) (o : option A) : bool :=
  match o with
  | Some a => check a
  | None => true
  end.

Definition length_between (lo hi : nat) (s : string) : bool :=
  Nat.leb lo (String.length s) && Nat.leb (String.length s) hi.

Definition CreateRequestSchema (b : CreateExchangeRequest) : bool :=
  Nat.leb 1 (String.length (cr_payload b))
  && optional (length_between 4 16) (cr_passcode b)
  && optional (fun s => Nat.leb (String.length s) 100) (cr_label b)
  && optional (fun n => 0 <? n) (cr_exp b).

Definition RetrieveRequestSchema (b : RetrieveManifestRequest) : bool :=
  length_between 1 200 (rm_recipient b)
  && optional (fun s => Nat.leb 1 (String.length s)) (rm_passcode b).

Definition RetrieveParamsSchema (id : string) : bool :=
  Nat.leb 1 (String.length id).

(** The readings of the clock during one creation: [Date.now()] for the
    expiry, [Date.now()] for [createdAt], and the time of the KV write. *)
Record CreateClock : Type := {
  cc_expiry : Z;
  cc_created : Z;
  cc_put : Z;
}.

(** The readings of the clock during one retrieval: the time of the KV
    read, [Date.now()] of the expiry check, [Date.now()] inside
    [updateMetadata] and the time of its KV write. *)
Record RetrieveClock : Type := {
  rc_get : Z;
  rc_check : Z;
  rc_update : Z;
  rc_put : Z;
}.

Definition tier_limit_text (maxPayload : Z) : string :=
  let limitKb := maxPayload / 1024 in
  if 1024 <=? limitKb then pretty (limitKb / 1024) +:+ "MB"
  else pretty limitKb +:+ "KB".

Section Routes.
Context (P : Platform) (passcodeLib : PasscodeModule).

(** The trust verification step of the creation handler: the proof is
    verified when the request carries one. *)
Definition proofResult (req : CreateExchangeRequest) : VerificationResult :=
  if truthy (cr_proof req)
  then verifyExchangeProof P (cr_payload req) (default EmptyString (cr_proof req))
  else untrusted.

(** The handler of [POST /exchange]. [origin] is the origin of the
    request URL, against which the manifest path is resolved. The two
    writes of [Promise.all] are both started: when the write of the
    record throws, the blob is written all the same and the exception
    leaves the handler. *)
Definition createExchange (origin : string) (req : CreateExchangeRequest)
    (clk : CreateClock) (e : Entropy) (env : Bindings) : Response * Bindings :=
  if negb (CreateRequestSchema req) then (json ValidationFailure 400, env)
  else
    match validateJweHeader P (cr_payload req) with
    | Err err => (json (error_only (error_message err)) 400, env)
    | Ok _ =>
        let result := proofResult req in
        let trusted := vr_trusted result in
        let iss := vr_iss result in
        let maxPayload := if trusted then MAX_PAYLOAD_SIZE else UNTRUSTED_MAX_PAYLOAD_SIZE in
        if maxPayload <? Z.of_nat (String.length (cr_payload req)) then
          let tier := if trusted then "trusted" else "untrusted" in
          (json (error_only ("Payload too large for " +:+ tier +:+ " tier (max "
                               +:+ tier_limit_text maxPayload +:+ ")")) 413, env)
        else
          let maxExpiry := if trusted then MAX_EXPIRY_SECONDS else UNTRUSTED_EXPIRY_SECONDS in
          let defaultExpiry :=
            if trusted then DEFAULT_EXPIRY_SECONDS else UNTRUSTED_EXPIRY_SECONDS in
          let expSeconds := Z.min (default defaultExpiry (cr_exp req)) maxExpiry in
          let expTimestamp := cc_expiry clk + expSeconds * 1000 in
          let '(passcodeHash, e1) :=
            if truthy (cr_passcode req)
            then
              let '(h, e1) :=
                pm_hashPasscode passcodeLib (default EmptyString (cr_passcode req)) e in
              (Some h, e1)
            else (None, e) in
          let '(id, _) := generateExchangeId e1 in
          let bucket := storePayload (EXCHANGE_BUCKET env) id (cr_payload req) in
          match
            storeMetadata (EXCHANGE_KV env) id
              {| passcodeHash := if truthy passcodeHash then passcodeHash else None;
                 exp := expTimestamp;
                 attempts := 0;
                 label := cr_label req;
                 createdAt := cc_created clk;
                 trusted := trusted;
                 iss := iss |}
              expSeconds (cc_put clk)
          with
          | Err err =>
              (json (InternalServerError err) 500,
               {| EXCHANGE_KV := EXCHANGE_KV env; EXCHANGE_BUCKET := bucket |})
          | Ok kv =>
              let url := origin +:+ "/exchange/" +:+ id +:+ "/manifest.json" in
              (json (CreateBody
                       {| res_url := url;
                          res_exp := expTimestamp;
                          res_flag := if truthy passcodeHash then "P" else EmptyString;
                          res_passcode := None;
                          res_trusted := trusted;
                          res_iss := if truthy iss then iss else None |}) 201,
               {| EXCHANGE_KV := kv; EXCHANGE_BUCKET := bucket |})
          end
    end.

(** The end of the retrieval handler: load the payload and answer. *)
Definition sendManifest (id : string) (env : Bindings) : Response * Bindings :=
  match loadPayload (EXCHANGE_BUCKET env) id with
  | Some (String _ _ as jwe) =>
      (json (ManifestBody
               {| files := [ {| contentType := "application/bind+json";
                                embedded := jwe |} ] |}) 200, env)
  | _ => (json (error_only "Payload not found") 404, env)
  end.

(** The handler of [POST /exchange/{id}/manifest.json]. *)
Definition retrieveManifest (id : string) (req : RetrieveManifestRequest)
    (clk : RetrieveClock) (env : Bindings) : Response * Bindings :=
  if negb (RetrieveParamsSchema id && RetrieveRequestSchema req)
  then (json ValidationFailure 400, env)
  else
    let passcode := rm_passcode req in
    match loadMetadata (EXCHANGE_KV env) id (rc_get clk) with
    | None => (json (error_only "Exchange not found or expired") 404, env)
    | Some metadata =>
        if exp metadata <? rc_check clk then
          (json (error_only "Exchange has expired") 404,
           {| EXCHANGE_KV := deleteMetadata (EXCHANGE_KV env) id;
              EXCHANGE_BUCKET := deletePayload (EXCHANGE_BUCKET env) id |})
        else if MAX_ATTEMPTS <=? attempts metadata then
          (json (ErrorBody
                   {| error := "Too many failed attempts. Exchange has been locked.";
                      remainingAttempts := Some 0;
                      authRequired := None |}) 429,
           {| EXCHANGE_KV := deleteMetadata (EXCHANGE_KV env) id;
              EXCHANGE_BUCKET := deletePayload (EXCHANGE_BUCKET env) id |})
        else if truthy (passcodeHash metadata) then
          if negb (truthy passcode) then
            (json (ErrorBody
                     {| error := "Passcode required";
                        remainingAttempts := None;
                        authRequired := Some true |}) 401, env)
          else
            match pm_verifyPasscode passcodeLib (default EmptyString passcode)
                    (default EmptyString (passcodeHash metadata)) with
            | Err err => (json (InternalServerError err) 500, env)
            | Ok false =>
                let metadata' :=
                  {| passcodeHash := passcodeHash metadata;
                     exp := exp metadata;
                     attempts := attempts metadata + 1;
                     label := label metadata;
                     createdAt := createdAt metadata;
                     trusted := trusted metadata;
                     iss := iss metadata |} in
                let remaining := MAX_ATTEMPTS - attempts metadata' in
                match
                  updateMetadata (EXCHANGE_KV env) id metadata' (rc_update clk) (rc_put clk)
                with
                | Err err => (json (InternalServerError err) 500, env)
                | Ok kv =>
                    let bucket :=
                      if remaining <=? 0 then deletePayload (EXCHANGE_BUCKET env) id
                      else EXCHANGE_BUCKET env in
                    (json (ErrorBody
                             {| error := "Invalid passcode";
                                remainingAttempts := Some remaining;
                                authRequired := None |}) 401,
                     {| EXCHANGE_KV := kv; EXCHANGE_BUCKET := bucket |})
                end
            | Ok true => sendManifest id env
            end
        else sendManifest id env
    end.

(** A request to the service, with the inputs its handler reads. *)
Inductive Request : Type :=
| PostExchange (origin : string) (req : CreateExchangeRequest) (clk : CreateClock) (e : Entropy)
| PostManifest (id : string) (req : RetrieveManifestRequest) (clk : RetrieveClock).

Definition handle (r : Request) (env : Bindings) : Response * Bindings :=
  match r with
  | PostExchange origin req clk e => createExchange origin req clk e env
  | PostManifest id req clk => retrieveManifest id req clk env
  end.

(** Requests served one after the other: the responses and the final bindings. *)
Fixpoint serve (rs : list Request) (env : Bindings) : list Response * Bindings :=
  match rs with
  | [] => ([], env)
  | r :: rs' =>
      let '(resp, env1) := handle r env in
      let '(resps, env2) := serve rs' env1 in
      (resp :: resps, env2)
  end.

(** The identifier that a creation request draws. *)
Definition drawn_id (req : CreateExchangeRequest) (e : Entropy) : string :=
  let e1 := if truthy (cr_passcode req)
            then snd (pm_hashPasscode passcodeLib (default EmptyString (cr_passcode req)) e)
            else e in
  fst (generateExchangeId e1).

Definition creates (id : string) (r : Request) : Prop :=
  match r with
  | PostExchange _ req _ e => drawn_id req e = id
  | PostManifest _ _ _ => False
  end.

End Routes.

(** ** Predicates on responses and bindings used in the statements *)

(** A failed passcode verification, as the caller sees it. *)
Definition invalid_passcode (r : Response) : Prop :=
  exists n, r = json (ErrorBody {| error := "Invalid passcode";
                                   remainingAttempts := Some n;
                                   authRequired := None |}) 401.

(** Strings made of characters of the URL-safe base64 alphabet only. *)
Definition base64url_string (s : string) : Prop :=
  Forall (fun c => in_base64url_alphabet c = true) (list_ascii_of_string s).

(** The size bound of the tier in which a creation request is served. *)
Definition tier_bound (P : Platform) (req : CreateExchangeRequest) : Z :=
  if vr_trusted (proofResult P req) then MAX_PAYLOAD_SIZE else UNTRUSTED_MAX_PAYLOAD_SIZE.

(** The lifetime in seconds that the creation handler gives a request. *)
Definition tier_lifetime (P : Platform) (req : CreateExchangeRequest) : Z :=
  let t := vr_trusted (proofResult P req) in
  Z.min (default (if t then DEFAULT_EXPIRY_SECONDS else UNTRUSTED_EXPIRY_SECONDS) (cr_exp req))
        (if t then MAX_EXPIRY_SECONDS else UNTRUSTED_EXPIRY_SECONDS).

(** The manifest that carries the ciphertext [jwe]. *)
Definition manifest_of (jwe : string) : ResponseBody :=
  ManifestBody {| files := [ {| contentType := "application/bind+json"; embedded := jwe |} ] |}.

(** A retrieval that delivers a manifest. *)
Definition delivers (r : Response) : Prop :=
  status r = 200 \/ exists m, body r = ManifestBody m.

(** The identifier [id] is locked out: whatever record its key still
    holds has used up its attempts. *)
Definition locked_out (id : string) (env : Bindings) : Prop :=
  forall entry,
    EXCHANGE_KV env !! metadata_key id = Some entry ->
    MAX_ATTEMPTS <= attempts (kv_value entry).

(** The retrieval requests for [id] made of the given bodies and clock readings. *)
Definition retrievals (id : string) (tries : list (RetrieveManifestRequest * RetrieveClock))
    : list Request :=
  map (fun t => PostManifest id (fst t) (snd t)) tries.

(** A verification that fails when less than the minimum TTL of KV
    remains before the expiry: the record of [id] is live, not expired
    and not locked, it has a passcode hash, the request carries a
    passcode and [verifyPasscode] returns false. *)
Definition late_failed_verification (lib : PasscodeModule) (id : string) (env : Bindings)
    (t : RetrieveManifestRequest * RetrieveClock) : Prop :=
  RetrieveRequestSchema (fst t) = true
  /\ exists metadata passcode,
       loadMetadata (EXCHANGE_KV env) id (rc_get (snd t)) = Some metadata
       /\ rc_check (snd t) <= exp metadata
       /\ attempts metadata < MAX_ATTEMPTS
       /\ truthy (passcodeHash metadata) = true
       /\ rm_passcode (fst t) = Some passcode
       /\ pm_verifyPasscode lib passcode (default EmptyString (passcodeHash metadata)) = Ok false
       /\ exp metadata - rc_update (snd t) < KV_MINIMUM_TTL * 1000.

(** ** Further predicates used in the statements *)

Definition is_decimal_digit (c : ascii) : bool :=
  ((48 <=? N_of_ascii c) && (N_of_ascii c <=? 57))%N.

Definition is_lower_hex_digit (c : ascii) : bool :=
  is_decimal_digit c || ((97 <=? N_of_ascii c) && (N_of_ascii c <=? 102))%N.

(** Strings of decimal digits. *)
Definition decimal_string (s : string) : Prop :=
  Forall (fun c => is_decimal_digit c = true) (list_ascii_of_string s).

(** Strings of lowercase hexadecimal digits. *)
Definition lower_hex_string (s : string) : Prop :=
  Forall (fun c => is_lower_hex_digit c = true) (list_ascii_of_string s).

(** Strings without a colon. *)
Definition colon_free (s : string) : Prop :=
  Forall (fun c => Ascii.eqb c ":" = false) (list_ascii_of_string s).

(** The bindings of a fresh deployment. *)
Definition empty_bindings : Bindings :=
  {| EXCHANGE_KV := ∅; EXCHANGE_BUCKET := ∅ |}.

(** Every record counts between 0 and MAX_ATTEMPTS failed attempts, and
    a record that counts fewer has a non-empty blob in the bucket. *)
Definition consistent (env : Bindings) : Prop :=
  forall id entry,
    EXCHANGE_KV env !! metadata_key id = Some entry ->
    0 <= attempts (kv_value entry) <= MAX_ATTEMPTS
    /\ (attempts (kv_value entry) < MAX_ATTEMPTS ->
        exists c s, loadPayload (EXCHANGE_BUCKET env) id = Some (String c s)).

(** ** A small deterministic platform on which the handlers can be run

    Protected headers and JWT payloads are looked up in a table of known
    segments; the key directory of the issuer [acme] is reachable and
    accepts the signature segment [c2lnbmVk]; the stand-ins for SHA-256
    and PBKDF2 keep the output lengths of the real functions. *)
Module Fixture.

Definition bytes_of_string (s : string) : list byte :=
  map byte_of_ascii (list_ascii_of_string s).

Definition fit (n : nat) (l : list byte) : list byte :=
  take n (l ++ repeat x00 n).

Definition digest (data : list byte) : list byte := fit 32 data.

Definition kdf (password salt : list byte) (c dkLen : N) : list byte :=
  fit (N.to_nat dkLen) (salt ++ password).

Definition jose_error (code : string) : JsError := Thrown code code.

(** The encoding of the header with alg dir and enc A256GCM. *)
Definition header_dir_A256GCM : string := "eyJhbGciOiJkaXIiLCJlbmMiOiJBMjU2R0NNIn0".
(** The encoding of the header with alg dir and enc A128GCM. *)
Definition header_dir_A128GCM : string := "eyJhbGciOiJkaXIiLCJlbmMiOiJBMTI4R0NNIn0".
(** The encoding of the header with alg ES256 and kid key-1. *)
Definition header_ES256 : string := "eyJhbGciOiJFUzI1NiIsImtpZCI6ImtleS0xIn0".
(** The encoding of the header with alg RS256 and kid key-1. *)
Definition header_RS256 : string := "eyJhbGciOiJSUzI1NiIsImtpZCI6ImtleS0xIn0".

Definition decode_header (token : string) : result ProtectedHeader :=
  let parts := split "." token in
  if Nat.eqb (length parts) 3 || Nat.eqb (length parts) 5 then
    let h := default EmptyString (parts !! 0%nat) in
    if String.eqb h header_dir_A256GCM then
      Ok {| hdr_alg := Some "dir"; hdr_enc := Some "A256GCM"; hdr_kid := None |}
    else if String.eqb h header_dir_A128GCM then
      Ok {| hdr_alg := Some "dir"; hdr_enc := Some "A128GCM"; hdr_kid := None |}
    else if String.eqb h header_ES256 then
      Ok {| hdr_alg := Some "ES256"; hdr_enc := None; hdr_kid := Some "key-1" |}
    else if String.eqb h header_RS256 then
      Ok {| hdr_alg := Some "RS256"; hdr_enc := None; hdr_kid := Some "key-1" |}
    else Err (jose_error "ERR_JOSE_GENERIC")
  else Err (jose_error "ERR_JOSE_GENERIC").

(** A well-formed ciphertext in compact serialization. *)
Definition jwe : string := header_dir_A256GCM +:+ "..aXY.Y2lwaGVy.dGFn".

(** A ciphertext whose content encryption is not the required one. *)
Definition jwe_A128 : string := header_dir_A128GCM +:+ "..aXY.Y2lwaGVy.dGFn".

(** Payload segments: [acme-bound] is issued by acme for [jwe],
    [acme-other] by acme for another content, [anonymous] has no issuer,
    [ghost-bound] is issued by an issuer without a key directory. *)
Definition decode_payload (token : string) : result JWTPayload :=
  let parts := split "." token in
  if Nat.eqb (length parts) 3 then
    let p := default EmptyString (parts !! 1%nat) in
    let bound := Some (base64url (digest (bytes_of_string jwe))) in
    if String.eqb p "acme-bound" then
      Ok {| jwt_iss := Some "acme"; jwt_sub := bound; jwt_iat := Some 1 |}
    else if String.eqb p "acme-other" then
      Ok {| jwt_iss := Some "acme"; jwt_sub := Some "AAAA"; jwt_iat := Some 1 |}
    else if String.eqb p "anonymous" then
      Ok {| jwt_iss := None; jwt_sub := bound; jwt_iat := Some 1 |}
    else if String.eqb p "ghost-bound" then
      Ok {| jwt_iss := Some "ghost"; jwt_sub := bound; jwt_iat := Some 1 |}
    else Err (jose_error "ERR_JWT_INVALID")
  else Err (jose_error "ERR_JWT_INVALID").

Definition resolve (path base : string) : result string := Ok (base +:+ path).

Definition verify_signature (token url : string) (algorithms : list string)
    : result JWTPayload :=
  if String.eqb url "https://bind-pki.org/acme/.well-known/jwks.json" then
    if String.eqb (default EmptyString (split "." token !! 2%nat)) "c2lnbmVk"
    then decode_payload token
    else Err (jose_error "ERR_JWS_SIGNATURE_VERIFICATION_FAILED")
  else Err (jose_error "ERR_JWKS_TIMEOUT").

Definition platform : Platform :=
  {| decodeProtectedHeader := decode_header;
     decodeJwt := decode_payload;
     newURL := resolve;
     jwtVerify := verify_signature;
     sha256 := digest;
     utf8_encode := bytes_of_string;
     pbkdf2_hmac_sha256 := kdf |}.

Definition origin : string := "https://exchange.example".

(** An entropy source that counts up from [k]. *)
Definition counting (k : nat) : Entropy :=
  fun i => default x00 (Byte.of_nat ((k + i) mod 256)).

Definition no_bindings : Bindings :=
  {| EXCHANGE_KV := ∅; EXCHANGE_BUCKET := ∅ |}.

Definition open_request : CreateExchangeRequest :=
  {| cr_payload := jwe; cr_passcode := None; cr_label := None;
     cr_exp := None; cr_proof := None |}.

(** A request for a lifetime below the minimum TTL of KV. *)
Definition short_request : CreateExchangeRequest :=
  {| cr_payload := jwe; cr_passcode := None; cr_label := None;
     cr_exp := Some 59; cr_proof := None |}.

(** Requests for a lifetime of one minute, without and with a passcode. *)
Definition minute_request : CreateExchangeRequest :=
  {| cr_payload := jwe; cr_passcode := None; cr_label := None;
     cr_exp := Some 60; cr_proof := None |}.

Definition minute_protected_request : CreateExchangeRequest :=
  {| cr_payload := jwe; cr_passcode := Some "482910"; cr_label := None;
     cr_exp := Some 60; cr_proof := None |}.

Definition protected_request : CreateExchangeRequest :=
  {| cr_payload := jwe; cr_passcode := Some "482910"; cr_label := Some "Acme GL";
     cr_exp := Some 600; cr_proof := None |}.

Definition trusted_request : CreateExchangeRequest :=
  {| cr_payload := jwe; cr_passcode := None; cr_label := None;
     cr_exp := None; cr_proof := Some (header_ES256 +:+ ".acme-bound.c2lnbmVk") |}.

Definition at_time (t : Z) : CreateClock :=
  {| cc_expiry := t; cc_created := t; cc_put := t |}.

Definition reading (t : Z) : RetrieveClock :=
  {| rc_get := t; rc_check := t; rc_update := t; rc_put := t |}.

Definition anonymous : RetrieveManifestRequest :=
  {| rm_recipient := "Jane Doe"; rm_passcode := None |}.

Definition with_passcode (p : string) : RetrieveManifestRequest :=
  {| rm_recipient := "Jane Doe"; rm_passcode := Some p |}.

(** The passcode module used in the runs. *)
Definition lib : PasscodeModule := Noble.module platform.

(** A creation whose record is written 5 ms after its expiry is computed. *)
Definition late_write : CreateClock :=
  {| cc_expiry := 0; cc_created := 0; cc_put := 5 |}.

(** The bindings after one creation on the empty store. *)
Definition after (req : CreateExchangeRequest) (clk : CreateClock) : Bindings :=
  snd (createExchange platform lib origin req clk (counting 0) no_bindings).

(** The identifier drawn by that creation. *)
Definition id_of (req : CreateExchangeRequest) : string :=
  drawn_id lib req (counting 0).

(** Ten retrievals with a wrong passcode. *)
Definition wrong_tries : list (RetrieveManifestRequest * RetrieveClock) :=
  repeat (with_passcode "0000", reading 5) 10.

(** The bindings after nine counted failures on the protected exchange. *)
Definition nine_failures : Bindings :=
  snd (serve platform lib
         (retrievals (id_of protected_request) (repeat (with_passcode "0000", reading 5) 9))
         (after protected_request (at_time 0))).

(** A request with an empty ciphertext, one whose ciphertext has the
    wrong content encryption, and one whose ciphertext exceeds the bound
    of the untrusted tier. *)
Definition empty_request : CreateExchangeRequest :=
  {| cr_payload := EmptyString; cr_passcode := None; cr_label := None;
     cr_exp := None; cr_proof := None |}.

Definition weak_request : CreateExchangeRequest :=
  {| cr_payload := jwe_A128; cr_passcode := None; cr_label := None;
     cr_exp := None; cr_proof := None |}.

Definition large_request : CreateExchangeRequest :=
  {| cr_payload := jwe +:+ string_of_list_ascii (repeat "A"%char (10 * 1024));
     cr_passcode := None; cr_label := None; cr_exp := None; cr_proof := None |}.

(** A record that expires ten minutes after time 0. *)
Definition sample_record : ExchangeMetadata :=
  {| passcodeHash := None; exp := 600000; attempts := 0; label := None;
     createdAt := 0; trusted := false; iss := None |}.

(** A creation followed by a retrieval with a wrong passcode. *)
Definition one_failure : list Request :=
  [ PostExchange origin protected_request (at_time 0) (counting 0);
    PostManifest (id_of protected_request) (with_passcode "0000") (reading 5) ].

End Fixture.

(** * Identifier generation *)

Lemma string_ind3 (Q : string -> Prop) :
  Q EmptyString ->
  (forall a, Q (String a EmptyString)) ->
  (forall a b, Q (String a (String b EmptyString))) ->
  (forall a b c r, Q r -> Q (String a (String b (String c r)))) ->
  forall s, Q s.
Proof.
  intros H0 H1 H2 H3 s.
  enough (Q s /\ (forall a, Q (String a s)) /\ (forall a b, Q (String a (String b s))))
    as [H _] by exact H.
  induction s as [|x s [IH0 [IH1 IH2]]].
  - repeat split; auto.
  - repeat split; auto.
Qed.

Lemma url_digit (n : N) :
  let c := b64_digit (n mod 64) in
  let c1 := if Ascii.eqb c "+" then "-"%char else c in
  let c2 := if Ascii.eqb c1 "/" then "_"%char else c1 in
  Ascii.eqb c2 "=" = false /\ in_base64url_alphabet c2 = true.
Proof.
  assert (Hall : forallb (fun k =>
            let c := b64_digit (N.of_nat k) in
            let c1 := if Ascii.eqb c "+" then "-"%char else c in
            let c2 := if Ascii.eqb c1 "/" then "_"%char else c1 in
            negb (Ascii.eqb c2 "=") && in_base64url_alphabet c2) (seq 0 64) = true)
    by (vm_compute; reflexivity).
  rewrite forallb_forall in Hall.
  assert (Hlt : (n mod 64 < 64)%N) by (apply N.mod_lt; discriminate).
  cbv zeta. generalize dependent (n mod 64)%N. intros m Hlt.
  assert (Hk : In (N.to_nat m) (seq 0 64)) by (apply in_seq; lia).
  apply Hall in Hk. rewrite N2Nat.id in Hk. apply andb_prop in Hk as [Hne Hin].
  split; [now apply negb_true_iff | exact Hin].
Qed.

Lemma strip_padding_cons (x : ascii) (r : string) :
  Ascii.eqb x "=" = false -> strip_padding (String x r) = String x (strip_padding r).
Proof.
  intros Hx. cbn [strip_padding]. destruct (strip_padding r); [now rewrite Hx | reflexivity].
Qed.

Lemma base64url_string_spec (s : string) :
  let r := strip_padding (replace_all "/" "_" (replace_all "+" "-" (btoa s))) in
  String.length r = ((4 * String.length s + 2) / 3)%nat /\ base64url_string r.
Proof.
  induction s as [|a|a b|a b c s [IHlen IHbase64url_string]] using string_ind3; cbv zeta.
  - split; [reflexivity | constructor].
  - cbn [btoa replace_all]. unfold sextet.
    destruct (url_digit (group24 a zero zero / 2 ^ (6 * 3))) as [E3 A3].
    destruct (url_digit (group24 a zero zero / 2 ^ (6 * 2))) as [E2 A2].
    cbv zeta in *.
    rewrite !strip_padding_cons by assumption.
    split; [reflexivity | repeat constructor; assumption].
  - cbn [btoa replace_all]. unfold sextet.
    destruct (url_digit (group24 a b zero / 2 ^ (6 * 3))) as [E3 A3].
    destruct (url_digit (group24 a b zero / 2 ^ (6 * 2))) as [E2 A2].
    destruct (url_digit (group24 a b zero / 2 ^ (6 * 1))) as [E1 A1].
    cbv zeta in *.
    rewrite !strip_padding_cons by assumption.
    split; [reflexivity | repeat constructor; assumption].
  - cbn [btoa replace_all]. unfold sextet.
    destruct (url_digit (group24 a b c / 2 ^ (6 * 3))) as [E3 A3].
    destruct (url_digit (group24 a b c / 2 ^ (6 * 2))) as [E2 A2].
    destruct (url_digit (group24 a b c / 2 ^ (6 * 1))) as [E1 A1].
    destruct (url_digit (group24 a b c / 2 ^ (6 * 0))) as [E0 A0].
    cbv zeta in *.
    rewrite !strip_padding_cons by assumption.
    split.
    + cbn [String.length]. rewrite IHlen.
      replace (4 * S (S (S (String.length s))) + 2)%nat
        with ((4 * String.length s + 2) + 4 * 3)%nat by lia.
      rewrite Nat.div_add by discriminate. lia.
    + unfold base64url_string in *. cbn [list_ascii_of_string]. repeat constructor; assumption.
Qed.

Lemma binString_length (bytes : list byte) :
  String.length (binString bytes) = length bytes.
Proof.
  unfold binString. induction bytes as [|b bytes IH]; [reflexivity|].
  cbn. now rewrite IH.
Qed.

Lemma base64url_spec (bytes : list byte) :
  String.length (base64url bytes) = ((4 * length bytes + 2) / 3)%nat
  /\ base64url_string (base64url bytes).
Proof.
  unfold base64url. rewrite <- binString_length. apply base64url_string_spec.
Qed.

Lemma getRandomValues_length (n : nat) (e : Entropy) :
  length (fst (getRandomValues n e)) = n.
Proof. unfold getRandomValues. cbn. now rewrite length_map, length_seq. Qed.

Lemma generateExchangeId_spec (e : Entropy) :
  String.length (fst (generateExchangeId e)) = 43%nat
  /\ base64url_string (fst (generateExchangeId e)).
Proof.
  unfold generateExchangeId.
  pose proof (getRandomValues_length EXCHANGE_ID_BYTES e) as Hlen.
  destruct (getRandomValues EXCHANGE_ID_BYTES e) as [bytes e']. cbn [fst] in *.
  destruct (base64url_spec bytes) as [Hl Hc]. rewrite Hlen in Hl.
  split; [exact Hl | exact Hc].
Qed.

(** * Creation *)

Section Creation.
Context (P : Platform) (lib : PasscodeModule).

Lemma kv_put_accepted kv key value ttl now :
  KV_MINIMUM_TTL <= ttl ->
  kv_put kv key value ttl now
  = Ok (<[key := {| kv_value := value; kv_stored_at := now; kv_expirationTtl := ttl |}]> kv).
Proof.
  intros Httl. unfold kv_put.
  destruct (Z.ltb_spec0 ttl KV_MINIMUM_TTL) as [Hlt|_]; [lia | reflexivity].
Qed.

Lemma kv_put_refused kv key value ttl now :
  ttl < KV_MINIMUM_TTL -> exists err, kv_put kv key value ttl now = Err err.
Proof.
  intros Httl. unfold kv_put.
  destruct (Z.ltb_spec0 ttl KV_MINIMUM_TTL) as [_|Hge]; [eexists; reflexivity | lia].
Qed.

(** The stored hash and the stored record of an accepted creation
    request, named as in the handler. *)
Lemma createExchange_accepted origin req clk e env :
  CreateRequestSchema req = true ->
  validateJweHeader P (cr_payload req) = Ok tt ->
  Z.of_nat (String.length (cr_payload req)) <= tier_bound P req ->
  KV_MINIMUM_TTL <= tier_lifetime P req ->
  let t := vr_trusted (proofResult P req) in
  let hash :=
    if truthy (cr_passcode req)
    then Some (fst (pm_hashPasscode lib (default EmptyString (cr_passcode req)) e))
    else None in
  let id := drawn_id lib req e in
  createExchange P lib origin req clk e env =
    (json (CreateBody
             {| res_url := origin +:+ "/exchange/" +:+ id +:+ "/manifest.json";
                res_exp := cc_expiry clk + tier_lifetime P req * 1000;
                res_flag := if truthy hash then "P" else EmptyString;
                res_passcode := None;
                res_trusted := t;
                res_iss := if truthy (vr_iss (proofResult P req))
                           then vr_iss (proofResult P req) else None |}) 201,
     {| EXCHANGE_KV :=
          <[metadata_key id :=
              {| kv_value :=
                   {| passcodeHash := if truthy hash then hash else None;
                      exp := cc_expiry clk + tier_lifetime P req * 1000;
                      attempts := 0;
                      label := cr_label req;
                      createdAt := cc_created clk;
                      trusted := t;
                      iss := vr_iss (proofResult P req) |};
                 kv_stored_at := cc_put clk;
                 kv_expirationTtl := tier_lifetime P req |}]> (EXCHANGE_KV env);
        EXCHANGE_BUCKET := storePayload (EXCHANGE_BUCKET env) id (cr_payload req) |}).
Proof.
  intros Hschema Hheader Hsize Httl. cbv zeta.
  unfold createExchange, drawn_id, tier_bound, storeMetadata in *.
  rewrite Hschema, Hheader. cbn [negb].
  destruct (Z.ltb_spec0
              (if vr_trusted (proofResult P req) then MAX_PAYLOAD_SIZE
               else UNTRUSTED_MAX_PAYLOAD_SIZE)
              (Z.of_nat (String.length (cr_payload req)))) as [Hgt|_]; [lia|].
  fold (tier_lifetime P req).
  destruct (truthy (cr_passcode req));
    [destruct (pm_hashPasscode lib (default EmptyString (cr_passcode req)) e) as [h e1]|];
    cbn [fst snd];
    match goal with
    | |- context [generateExchangeId ?x] => destruct (generateExchangeId x) as [id e2]
    end; rewrite kv_put_accepted by exact Httl; reflexivity.
Qed.

(** A creation request that passes the checks of the handler but asks
    for a lifetime below the minimum TTL of KV: the write of the record
    throws after the blob was written. *)
Lemma createExchange_refused origin req clk e env :
  CreateRequestSchema req = true ->
  validateJweHeader P (cr_payload req) = Ok tt ->
  Z.of_nat (String.length (cr_payload req)) <= tier_bound P req ->
  tier_lifetime P req < KV_MINIMUM_TTL ->
  exists err,
    createExchange P lib origin req clk e env =
      (json (InternalServerError err) 500,
       {| EXCHANGE_KV := EXCHANGE_KV env;
          EXCHANGE_BUCKET :=
            storePayload (EXCHANGE_BUCKET env) (drawn_id lib req e) (cr_payload req) |}).
Proof.
  intros Hschema Hheader Hsize Httl.
  unfold createExchange, drawn_id, tier_bound, storeMetadata in *.
  rewrite Hschema, Hheader. cbn [negb].
  destruct (Z.ltb_spec0
              (if vr_trusted (proofResult P req) then MAX_PAYLOAD_SIZE
               else UNTRUSTED_MAX_PAYLOAD_SIZE)
              (Z.of_nat (String.length (cr_payload req)))) as [Hgt|_]; [lia|].
  fold (tier_lifetime P req).
  destruct (truthy (cr_passcode req));
    [destruct (pm_hashPasscode lib (default EmptyString (cr_passcode req)) e) as [h e1]|];
    cbn [fst snd];
    match goal with
    | |- context [generateExchangeId ?x] => destruct (generateExchangeId x) as [id e2]
    end;
    match goal with
    | |- context [kv_put ?kv ?k ?v ?ttl ?now] =>
        destruct (kv_put_refused kv k v ttl now Httl) as [err ->]
    end; exists err; reflexivity.
Qed.

(** Only a request that passes the checks of the handler and asks for a
    lifetime that KV accepts is answered with 201. *)
Lemma createExchange_201 origin req clk e env :
  status (fst (createExchange P lib origin req clk e env)) = 201 ->
  CreateRequestSchema req = true
  /\ validateJweHeader P (cr_payload req) = Ok tt
  /\ Z.of_nat (String.length (cr_payload req)) <= tier_bound P req
  /\ KV_MINIMUM_TTL <= tier_lifetime P req.
Proof.
  intros H201.
  destruct (CreateRequestSchema req) eqn:Hschema;
    [|unfold createExchange in H201; rewrite Hschema in H201; discriminate H201].
  destruct (validateJweHeader P (cr_payload req)) as [[]|err] eqn:Hheader;
    [|unfold createExchange in H201; rewrite Hschema, Hheader in H201; discriminate H201].
  destruct (Z.le_gt_cases (Z.of_nat (String.length (cr_payload req))) (tier_bound P req))
    as [Hsize|Hsize].
  - destruct (Z.le_gt_cases KV_MINIMUM_TTL (tier_lifetime P req)) as [Httl|Httl].
    + repeat split; assumption.
    + destruct (createExchange_refused origin req clk e env Hschema Hheader Hsize Httl)
        as [err Hrefused].
      rewrite Hrefused in H201. discriminate H201.
  - unfold createExchange, tier_bound in *. rewrite Hschema, Hheader in H201. cbn [negb] in H201.
    destruct (Z.ltb_spec0
                (if vr_trusted (proofResult P req) then MAX_PAYLOAD_SIZE
                 else UNTRUSTED_MAX_PAYLOAD_SIZE)
                (Z.of_nat (String.length (cr_payload req)))) as [_|Hle]; [|lia].
    discriminate H201.
Qed.

(** A creation that is not answered with 201 writes no record. *)
Lemma createExchange_rejected_kv origin req clk e env :
  status (fst (createExchange P lib origin req clk e env)) <> 201 ->
  EXCHANGE_KV (snd (createExchange P lib origin req clk e env)) = EXCHANGE_KV env.
Proof.
  unfold createExchange.
  destruct (negb (CreateRequestSchema req)); [reflexivity|].
  destruct (validateJweHeader P (cr_payload req)) as [[]|err]; [|reflexivity].
  destruct (_ <? _); [reflexivity|].
  destruct (if truthy (cr_passcode req) then _ else _) as [h e1].
  destruct (generateExchangeId e1) as [i e2].
  destruct (storeMetadata _ _ _ _ _); [|reflexivity].
  cbn. intros Hne. now destruct Hne.
Qed.

End Creation.

Section CreationClaims.
Context (P : Platform) (lib : PasscodeModule).

(** C9. The claim fails on requests for a lifetime below 60 seconds. A
    creation request that passes the request schema, whose ciphertext has
    the required header and fits the bound of its tier, but whose
    lifetime min(exp ?? tier default, tier max) is below the minimum TTL
    of KV, does not succeed: the write of the record throws, the request
    is answered with 500, no record is stored and the blob stays in the
    bucket under the identifier that was drawn. The identifier generator
    itself behaves as claimed: it encodes 32 bytes of the entropy source
    as URL-safe unpadded base64, 43 characters of the base64url
    alphabet. *)
Theorem creation_below_minimum_ttl_fails origin req clk e env :
  CreateRequestSchema req = true ->
  validateJweHeader P (cr_payload req) = Ok tt ->
  Z.of_nat (String.length (cr_payload req)) <= tier_bound P req ->
  tier_lifetime P req < KV_MINIMUM_TTL ->
  (exists n, cr_exp req = Some n /\ 0 < n < 60)
  /\ (exists err,
        fst (createExchange P lib origin req clk e env) = json (InternalServerError err) 500)
  /\ EXCHANGE_KV (snd (createExchange P lib origin req clk e env)) = EXCHANGE_KV env
  /\ loadPayload (EXCHANGE_BUCKET (snd (createExchange P lib origin req clk e env)))
       (drawn_id lib req e) = Some (cr_payload req)
  /\ String.length (drawn_id lib req e) = 43%nat
  /\ base64url_string (drawn_id lib req e).
Proof.
  intros Hschema Hheader Hsize Httl.
  destruct (createExchange_refused P lib origin req clk e env Hschema Hheader Hsize Httl)
    as [err ->].
  cbn [fst snd EXCHANGE_KV EXCHANGE_BUCKET]. split.
  - unfold tier_lifetime, KV_MINIMUM_TTL in Httl. cbv zeta in Httl.
    unfold CreateRequestSchema in Hschema.
    destruct (cr_exp req) as [n|]; cbn [default optional] in *.
    + exists n. split; [reflexivity|].
      apply andb_prop in Hschema as [_ Hpos]. apply Z.ltb_lt in Hpos.
      unfold id in Httl.
      destruct (vr_trusted (proofResult P req));
        unfold MAX_EXPIRY_SECONDS, UNTRUSTED_EXPIRY_SECONDS in Httl; lia.
    + destruct (vr_trusted (proofResult P req));
        unfold DEFAULT_EXPIRY_SECONDS, MAX_EXPIRY_SECONDS, UNTRUSTED_EXPIRY_SECONDS in Httl; lia.
  - split; [exists err; reflexivity|]. split; [reflexivity|]. split.
    + unfold loadPayload, storePayload. apply lookup_insert_eq.
    + unfold drawn_id. apply generateExchangeId_spec.
Qed.

(** C7. In every successful creation the effective lifetime in seconds is
    the minimum of the requested lifetime (when absent, the default of the
    tier) and the maximum of the tier: default 72 hours and maximum 366
    days when trusted, one hour for both when untrusted. The expiry
    timestamp in the answer and in the stored record is the reading of the
    clock plus that lifetime in milliseconds, and the record is stored
    with that lifetime as its TTL. *)
Theorem effective_expiry origin req clk e env :
  status (fst (createExchange P lib origin req clk e env)) = 201 ->
  let t := vr_trusted (proofResult P req) in
  let tier_default := if t then 72 * 3600 else 3600 in
  let tier_max := if t then 366 * 86400 else 3600 in
  let effective := Z.min (match cr_exp req with Some n => n | None => tier_default end) tier_max in
  exists r entry,
    body (fst (createExchange P lib origin req clk e env)) = CreateBody r
    /\ res_exp r = cc_expiry clk + effective * 1000
    /\ EXCHANGE_KV (snd (createExchange P lib origin req clk e env))
         !! metadata_key (drawn_id lib req e) = Some entry
    /\ exp (kv_value entry) = cc_expiry clk + effective * 1000
    /\ kv_expirationTtl entry = effective.
Proof.
  intros H201.
  destruct (createExchange_201 P lib origin req clk e env H201) as (Hs & Hh & Hz & Httl).
  rewrite (createExchange_accepted P lib origin req clk e env Hs Hh Hz Httl).
  cbv zeta. cbn [fst snd body json EXCHANGE_KV].
  eexists _, _. split; [reflexivity|].
  rewrite lookup_insert_eq.
  cbn [res_exp]. repeat split.
  all: cbn [kv_value kv_expirationTtl exp]; unfold tier_lifetime.
  all: destruct (vr_trusted (proofResult P req)), (cr_exp req); reflexivity.
Qed.

End CreationClaims.

Section OpenExchange.
Context (P : Platform) (lib : PasscodeModule).

(** C3, as the handler behaves. The answer to a successful creation
    never carries a passcode field, whether or not the caller supplied a
    passcode. When the caller supplied none, no passcode is generated:
    the record is stored without a passcode hash and the access flag in
    the answer is empty. *)
Theorem creation_answer_has_no_passcode origin req clk e env :
  status (fst (createExchange P lib origin req clk e env)) = 201 ->
  exists r entry,
    body (fst (createExchange P lib origin req clk e env)) = CreateBody r
    /\ res_passcode r = None
    /\ EXCHANGE_KV (snd (createExchange P lib origin req clk e env))
         !! metadata_key (drawn_id lib req e) = Some entry
    /\ (cr_passcode req = None ->
        res_flag r = EmptyString /\ passcodeHash (kv_value entry) = None).
Proof.
  intros H201.
  destruct (createExchange_201 P lib origin req clk e env H201) as (Hs & Hh & Hz & Httl).
  rewrite (createExchange_accepted P lib origin req clk e env Hs Hh Hz Httl).
  cbv zeta. cbn [fst snd body json EXCHANGE_KV].
  eexists _, _. split; [reflexivity|]. split; [reflexivity|].
  rewrite lookup_insert_eq.
  split; [reflexivity|].
  intros Hnone. rewrite Hnone. cbn. split; reflexivity.
Qed.

(** C1. Round trip. An exchange is created without a passcode and the
    creation is answered with 201, which the handler does only for a
    ciphertext with the required header that fits the bound of its tier;
    the clock of the creation does not run backwards between the
    computation of the expiry and the write of the record. The answer
    carries a locator that embeds the identifier. A retrieval by that
    identifier without a passcode, before the expiry of the answer,
    returns status 200 and a manifest with a single file descriptor whose
    content type is application/bind+json and whose embedded ciphertext
    is the original string. *)
Theorem round_trip origin req cclk e env rreq rclk :
  cr_passcode req = None ->
  status (fst (createExchange P lib origin req cclk e env)) = 201 ->
  cc_expiry cclk <= cc_put cclk ->
  RetrieveRequestSchema rreq = true ->
  rm_passcode rreq = None ->
  rc_get rclk <= rc_check rclk ->
  validateJweHeader P (cr_payload req) = Ok tt
  /\ Z.of_nat (String.length (cr_payload req)) <= tier_bound P req
  /\ exists r id,
       fst (createExchange P lib origin req cclk e env) = json (CreateBody r) 201
       /\ id = drawn_id lib req e
       /\ res_url r = origin +:+ "/exchange/" +:+ id +:+ "/manifest.json"
       /\ (rc_check rclk < res_exp r ->
           fst (retrieveManifest lib id rreq rclk
                  (snd (createExchange P lib origin req cclk e env)))
           = json (manifest_of (cr_payload req)) 200).
Proof.
  intros Hnone H201 Hclock Hrs Hrnone Hrclock.
  destruct (createExchange_201 P lib origin req cclk e env H201) as (Hs & Hh & Hz & Httl).
  split; [exact Hh|]. split; [exact Hz|].
  rewrite (createExchange_accepted P lib origin req cclk e env Hs Hh Hz Httl).
  cbv zeta. rewrite Hnone. cbn [truthy fst snd].
  eexists _, (drawn_id lib req e). do 3 (split; [reflexivity|]).
  cbn [res_exp]. intros Hbefore.
  set (id := drawn_id lib req e).
  assert (Hid : RetrieveParamsSchema id = true).
  { unfold RetrieveParamsSchema, id, drawn_id.
    destruct (generateExchangeId_spec
                (if truthy (cr_passcode req)
                 then snd (pm_hashPasscode lib (default EmptyString (cr_passcode req)) e)
                 else e)) as [Hlen _].
    rewrite Hlen. reflexivity. }
  unfold retrieveManifest. rewrite Hid, Hrs. cbn [andb negb EXCHANGE_KV EXCHANGE_BUCKET].
  unfold loadMetadata, kv_get. rewrite lookup_insert_eq.
  unfold kv_alive. cbn [kv_value kv_stored_at kv_expirationTtl exp attempts passcodeHash].
  match goal with
  | |- context [rc_get rclk <? ?b] => destruct (Z.ltb_spec0 (rc_get rclk) b) as [_|Hdead]; [|lia]
  end.
  cbn [exp attempts passcodeHash].
  match goal with
  | |- context [?a <? rc_check rclk] =>
      destruct (Z.ltb_spec0 a (rc_check rclk)) as [Hexp|_]; [lia|]
  end.
  cbn [Z.leb MAX_ATTEMPTS Z.compare truthy].
  unfold sendManifest, loadPayload, storePayload. cbn [EXCHANGE_BUCKET].
  rewrite lookup_insert_eq.
  unfold CreateRequestSchema in Hs.
  destruct (cr_payload req) as [|c s]; [cbn in Hs; discriminate|].
  reflexivity.
Qed.

End OpenExchange.

(** * Retrieval *)

Section Retrieval.
Context (lib : PasscodeModule).

(** C8. A retrieval of a passcode-protected exchange that is neither
    expired nor locked, sent without a passcode, is answered with 401 and
    the authRequired marker, and the bindings after the call are the
    bindings before it: the attempt counter is not incremented and
    neither the record nor the blob is written or deleted. *)
Theorem auth_required_changes_nothing id req clk env md :
  RetrieveParamsSchema id = true ->
  RetrieveRequestSchema req = true ->
  loadMetadata (EXCHANGE_KV env) id (rc_get clk) = Some md ->
  rc_check clk <= exp md ->
  attempts md < MAX_ATTEMPTS ->
  truthy (passcodeHash md) = true ->
  rm_passcode req = None ->
  retrieveManifest lib id req clk env
  = (json (ErrorBody {| error := "Passcode required";
                        remainingAttempts := None;
                        authRequired := Some true |}) 401, env).
Proof.
  intros Hid Hreq Hload Hlive Hopen Hhash Hnone.
  unfold retrieveManifest. rewrite Hid, Hreq, Hload, Hhash, Hnone. cbn [andb negb truthy].
  destruct (Z.ltb_spec0 (exp md) (rc_check clk)) as [Hexp|_]; [lia|].
  destruct (Z.leb_spec0 MAX_ATTEMPTS (attempts md)) as [Hlocked|_]; [lia|].
  reflexivity.
Qed.

(** [updateMetadata] writes the record when at least the minimum TTL of
    KV remains before the expiry, and throws otherwise. *)
Lemma updateMetadata_accepted kv id md dateNow now :
  KV_MINIMUM_TTL * 1000 <= exp md - dateNow ->
  updateMetadata kv id md dateNow now
  = Ok (<[metadata_key id :=
            {| kv_value := md; kv_stored_at := now;
               kv_expirationTtl := Z.max 1 ((exp md - dateNow) / 1000) |}]> kv).
Proof.
  intros Hleft. unfold updateMetadata, kv_put.
  assert (KV_MINIMUM_TTL <= (exp md - dateNow) / 1000)
    by (apply Z.div_le_lower_bound; lia).
  destruct (Z.ltb_spec0 (Z.max 1 ((exp md - dateNow) / 1000)) KV_MINIMUM_TTL) as [Hlt|_];
    [lia | reflexivity].
Qed.

Lemma updateMetadata_refused kv id md dateNow now :
  exp md - dateNow < KV_MINIMUM_TTL * 1000 ->
  exists err, updateMetadata kv id md dateNow now = Err err.
Proof.
  intros Hleft. unfold updateMetadata, kv_put.
  assert ((exp md - dateNow) / 1000 < KV_MINIMUM_TTL)
    by (apply Z.div_lt_upper_bound; lia).
  destruct (Z.ltb_spec0 (Z.max 1 ((exp md - dateNow) / 1000)) KV_MINIMUM_TTL) as [_|Hge];
    [eexists; reflexivity |].
  unfold KV_MINIMUM_TTL in *. lia.
Qed.

Lemma supplied_passcode_truthy req pc :
  RetrieveRequestSchema req = true -> rm_passcode req = Some pc -> truthy (Some pc) = true.
Proof.
  unfold RetrieveRequestSchema. intros Hreq Hsome. rewrite Hsome in Hreq.
  destruct pc; [|reflexivity]. cbn in Hreq. now rewrite andb_false_r in Hreq.
Qed.

(** A failed verification when less than the minimum TTL of KV remains:
    [updateMetadata] throws and the handler has changed nothing. *)
Lemma late_failure_is_dropped id req clk env md pc :
  RetrieveParamsSchema id = true ->
  RetrieveRequestSchema req = true ->
  loadMetadata (EXCHANGE_KV env) id (rc_get clk) = Some md ->
  rc_check clk <= exp md ->
  attempts md < MAX_ATTEMPTS ->
  truthy (passcodeHash md) = true ->
  rm_passcode req = Some pc ->
  pm_verifyPasscode lib pc (default EmptyString (passcodeHash md)) = Ok false ->
  exp md - rc_update clk < KV_MINIMUM_TTL * 1000 ->
  exists err,
    retrieveManifest lib id req clk env = (json (InternalServerError err) 500, env).
Proof.
  intros Hid Hreq Hload Hlive Hopen Hhash Hsome Hverify Hleft.
  pose proof (supplied_passcode_truthy req pc Hreq Hsome) as Hpc.
  unfold retrieveManifest. rewrite Hid, Hreq, Hload, Hhash, Hsome, Hpc. cbn [andb negb].
  destruct (Z.ltb_spec0 (exp md) (rc_check clk)) as [Hexp|_]; [lia|].
  destruct (Z.leb_spec0 MAX_ATTEMPTS (attempts md)) as [Hlocked|_]; [lia|].
  change (default EmptyString (Some pc)) with pc. rewrite Hverify.
  match goal with
  | |- context [updateMetadata ?kv ?i ?m ?d ?n] =>
      destruct (updateMetadata_refused kv i m d n Hleft) as [err ->]
  end.
  exists err. reflexivity.
Qed.

(** C5. The claim fails in the last minute of an exchange. A retrieval
    of a passcode-protected exchange that is not expired and has fewer
    than MAX_ATTEMPTS failed attempts, sent with a passcode that does not
    verify, when less than 60 seconds remain before the expiry: the TTL
    that [updateMetadata] computes, max(1, floor((exp - now) / 1000)), is
    below the minimum of KV, the write throws, the request is answered
    with 500 and not with InvalidPasscode, and the bindings are
    unchanged: the attempt is not counted and the blob is not deleted. *)
Theorem failed_verification_in_the_last_minute_is_not_counted id req clk env md pc :
  RetrieveParamsSchema id = true ->
  RetrieveRequestSchema req = true ->
  loadMetadata (EXCHANGE_KV env) id (rc_get clk) = Some md ->
  rc_check clk <= exp md ->
  attempts md < MAX_ATTEMPTS ->
  truthy (passcodeHash md) = true ->
  rm_passcode req = Some pc ->
  pm_verifyPasscode lib pc (default EmptyString (passcodeHash md)) = Ok false ->
  exp md - rc_update clk < KV_MINIMUM_TTL * 1000 ->
  Z.max 1 ((exp md - rc_update clk) / 1000) < 60
  /\ (exists err,
        retrieveManifest lib id req clk env = (json (InternalServerError err) 500, env))
  /\ loadMetadata (EXCHANGE_KV (snd (retrieveManifest lib id req clk env))) id (rc_get clk)
     = Some md
  /\ EXCHANGE_BUCKET (snd (retrieveManifest lib id req clk env)) = EXCHANGE_BUCKET env.
Proof.
  intros Hid Hreq Hload Hlive Hopen Hhash Hsome Hverify Hleft.
  split.
  { assert ((exp md - rc_update clk) / 1000 < KV_MINIMUM_TTL)
      by (apply Z.div_lt_upper_bound; lia).
    unfold KV_MINIMUM_TTL in *. lia. }
  destruct (late_failure_is_dropped id req clk env md pc
              Hid Hreq Hload Hlive Hopen Hhash Hsome Hverify Hleft) as [err Hstep].
  rewrite Hstep. cbn [snd].
  split; [exists err; reflexivity|]. split; [exact Hload | reflexivity].
Qed.

(** C4, as the handler behaves. When the record of an identifier exists
    but the clock is past its expiry, and when no record exists for it,
    the retrieval is answered with the same status 404 and with an error
    payload that has an error message and no other field; the messages
    differ: Exchange has expired in the first case, Exchange not found or
    expired in the second. *)
Theorem expired_and_absent_share_status id req clk present absent md :
  RetrieveParamsSchema id = true ->
  RetrieveRequestSchema req = true ->
  loadMetadata (EXCHANGE_KV present) id (rc_get clk) = Some md ->
  exp md < rc_check clk ->
  loadMetadata (EXCHANGE_KV absent) id (rc_get clk) = None ->
  fst (retrieveManifest lib id req clk present) = json (error_only "Exchange has expired") 404
  /\ fst (retrieveManifest lib id req clk absent)
     = json (error_only "Exchange not found or expired") 404
  /\ status (fst (retrieveManifest lib id req clk present))
     = status (fst (retrieveManifest lib id req clk absent)).
Proof.
  intros Hid Hreq Hsome Hexp Hnone.
  unfold retrieveManifest. rewrite Hid, Hreq, Hsome, Hnone. cbn [andb negb].
  destruct (Z.ltb_spec0 (exp md) (rc_check clk)) as [_|Hlive]; [|lia].
  repeat split.
Qed.

(** A retrieval with a passcode that verifies delivers the blob and
    changes nothing. *)
Lemma verified_passcode_delivers id req clk env md pc c s :
  RetrieveParamsSchema id = true ->
  RetrieveRequestSchema req = true ->
  loadMetadata (EXCHANGE_KV env) id (rc_get clk) = Some md ->
  rc_check clk <= exp md ->
  attempts md < MAX_ATTEMPTS ->
  truthy (passcodeHash md) = true ->
  rm_passcode req = Some pc ->
  pm_verifyPasscode lib pc (default EmptyString (passcodeHash md)) = Ok true ->
  loadPayload (EXCHANGE_BUCKET env) id = Some (String c s) ->
  retrieveManifest lib id req clk env = (json (manifest_of (String c s)) 200, env).
Proof.
  intros Hid Hreq Hload Hlive Hopen Hhash Hsome Hverify Hblob.
  pose proof (supplied_passcode_truthy req pc Hreq Hsome) as Hpc.
  unfold retrieveManifest. rewrite Hid, Hreq, Hload, Hhash, Hsome, Hpc. cbn [andb negb].
  destruct (Z.ltb_spec0 (exp md) (rc_check clk)) as [Hexp|_]; [lia|].
  destruct (Z.leb_spec0 MAX_ATTEMPTS (attempts md)) as [Hlocked|_]; [lia|].
  change (default EmptyString (Some pc)) with pc. rewrite Hverify.
  unfold sendManifest. rewrite Hblob. reflexivity.
Qed.

End Retrieval.

(** * Lockout *)

Lemma metadata_key_inj (a b : string) : metadata_key a = metadata_key b -> a = b.
Proof. unfold metadata_key. cbn. intros H. now injection H. Qed.

Section Lockout.
Context (P : Platform) (lib : PasscodeModule).

(** What a loaded record says about the stored entry. *)
Lemma loadMetadata_Some kv id now md :
  loadMetadata kv id now = Some md ->
  exists entry, kv !! metadata_key id = Some entry /\ kv_value entry = md.
Proof.
  unfold loadMetadata, kv_get. destruct (kv !! metadata_key id) as [entry|]; [|discriminate].
  destruct (kv_alive now entry); [|discriminate].
  intros [= <-]. now exists entry.
Qed.

(** What a successful [updateMetadata] wrote. *)
Lemma updateMetadata_Ok kv id md dateNow now kv' :
  updateMetadata kv id md dateNow now = Ok kv' ->
  kv' = <[metadata_key id :=
            {| kv_value := md; kv_stored_at := now;
               kv_expirationTtl := Z.max 1 ((exp md - dateNow) / 1000) |}]> kv.
Proof.
  unfold updateMetadata, kv_put. destruct (_ <? _); [discriminate|]. now intros [= <-].
Qed.

(** C2. The claim fails in the last minute of an exchange. Take a
    passcode-protected exchange and any number of retrievals of it, ten
    or more included, each with a passcode that fails verification while
    less than 60 seconds remain before the expiry. Every one of them is
    answered with 500, none is counted, and the bindings after them are
    the bindings before them; the exchange is not locked: a retrieval
    with the passcode that verifies is still answered with 200 and the
    manifest. *)
Theorem failed_verifications_in_the_last_minute_never_lock id env tries :
  RetrieveParamsSchema id = true ->
  Forall (late_failed_verification lib id env) tries ->
  Forall (fun r => status r = 500) (fst (serve P lib (retrievals id tries) env))
  /\ length (fst (serve P lib (retrievals id tries) env)) = length tries
  /\ snd (serve P lib (retrievals id tries) env) = env
  /\ forall req clk md pc c s,
       RetrieveRequestSchema req = true ->
       loadMetadata (EXCHANGE_KV env) id (rc_get clk) = Some md ->
       rc_check clk <= exp md ->
       attempts md < MAX_ATTEMPTS ->
       truthy (passcodeHash md) = true ->
       rm_passcode req = Some pc ->
       pm_verifyPasscode lib pc (default EmptyString (passcodeHash md)) = Ok true ->
       loadPayload (EXCHANGE_BUCKET env) id = Some (String c s) ->
       retrieveManifest lib id req clk (snd (serve P lib (retrievals id tries) env))
       = (json (manifest_of (String c s)) 200, env).
Proof.
  intros Hid Hall.
  assert (Hrun : Forall (fun r => status r = 500) (fst (serve P lib (retrievals id tries) env))
                 /\ length (fst (serve P lib (retrievals id tries) env)) = length tries
                 /\ snd (serve P lib (retrievals id tries) env) = env).
  { induction Hall as [|[req clk] tries Htry _ IH]; [repeat split; constructor|].
    destruct Htry as (Hreq & md & pc & Hload & Hlive & Hopen & Hhash & Hsome & Hverify & Hleft).
    cbn [fst snd] in *.
    destruct (late_failure_is_dropped
                lib id req clk env md pc Hid Hreq Hload Hlive Hopen Hhash Hsome Hverify Hleft)
      as (err & Hstep).
    cbn [retrievals map serve handle fst snd]. rewrite Hstep.
    fold (retrievals id tries).
    destruct (serve P lib (retrievals id tries) env) as [resps env'].
    cbn [fst snd] in *. destruct IH as (IHall & IHlen & IHenv).
    split; [constructor; [reflexivity | exact IHall]|].
    split; [cbn [length]; now rewrite IHlen | exact IHenv]. }
  destruct Hrun as (Hstatus & Hlen & Henv).
  split; [exact Hstatus|]. split; [exact Hlen|]. split; [exact Henv|].
  intros req clk md pc c s Hreq Hload Hlive Hopen Hhash Hsome Hverify Hblob.
  rewrite Henv.
  now apply (verified_passcode_delivers lib id req clk env md pc c s).
Qed.

End Lockout.

(** * Trust verification *)

Lemma option_string_eqb_eq (a b : option string) :
  option_string_eqb a b = true <-> a = b.
Proof.
  destruct a as [x|], b as [y|]; cbn; try (split; congruence).
  rewrite String.eqb_eq. split; congruence.
Qed.

Ltac settle_trust :=
  repeat split; intros;
  repeat match goal with
    | H : ex _ |- _ => destruct H
    | H : _ /\ _ |- _ => destruct H
    end;
  try reflexivity; try congruence; try discriminate.

Section Trust.
Context (P : Platform).

(** C6. [verifyExchangeProof] is a total function to a verification
    result: an exception of any step is caught and gives the untrusted
    result. The result is untrusted, with no issuer, when the algorithm of
    the header is not ES256, when the payload has no issuer, when
    [jwtVerify] throws (the key directory cannot be fetched, or the
    signature does not verify), and when the subject of the verified
    payload is not the base64url SHA-256 of the ciphertext, each of them
    whatever the other checks say. It is trusted exactly when every step
    succeeds, and the issuer of the result is then the issuer of the
    proof. *)
Theorem verification_is_fail_closed jwe proof :
  let r := verifyExchangeProof P jwe proof in
  (vr_trusted r = false -> r = untrusted)
  /\ (forall e, verifyExchangeProof_try P jwe proof = Err e -> r = untrusted)
  /\ (forall h, decodeProtectedHeader P proof = Ok h ->
                hdr_alg h <> Some "ES256" -> r = untrusted)
  /\ (forall p, decodeJwt P proof = Ok p -> jwt_iss p = None -> r = untrusted)
  /\ (forall p url e,
        decodeJwt P proof = Ok p ->
        newURL P ("/" +:+ interpolate (jwt_iss p) +:+ "/.well-known/jwks.json")
               TRUST_GATEWAY_URL = Ok url ->
        jwtVerify P proof url ["ES256"] = Err e -> r = untrusted)
  /\ (forall p url v,
        decodeJwt P proof = Ok p ->
        newURL P ("/" +:+ interpolate (jwt_iss p) +:+ "/.well-known/jwks.json")
               TRUST_GATEWAY_URL = Ok url ->
        jwtVerify P proof url ["ES256"] = Ok v ->
        jwt_sub v <> Some (sha256Base64url P jwe) -> r = untrusted)
  /\ (vr_trusted r = true <->
      exists h p url v,
        decodeProtectedHeader P proof = Ok h
        /\ hdr_alg h = Some "ES256"
        /\ decodeJwt P proof = Ok p
        /\ truthy (jwt_iss p) = true
        /\ newURL P ("/" +:+ interpolate (jwt_iss p) +:+ "/.well-known/jwks.json")
                  TRUST_GATEWAY_URL = Ok url
        /\ jwtVerify P proof url ["ES256"] = Ok v
        /\ jwt_sub v = Some (sha256Base64url P jwe)
        /\ vr_iss r = jwt_iss p).
Proof.
  cbv zeta. unfold verifyExchangeProof, verifyExchangeProof_try.
  unfold mbind, result_bind.
  destruct (decodeProtectedHeader P proof) as [h|eh]; [|settle_trust].
  destruct (option_string_eqb (hdr_alg h) (Some "ES256")) eqn:Halg; cbn [negb].
  2:{ assert (hdr_alg h <> Some "ES256")
        by (intros Heq; apply option_string_eqb_eq in Heq; congruence).
      settle_trust. }
  apply option_string_eqb_eq in Halg.
  destruct (decodeJwt P proof) as [p|ep]; [|settle_trust].
  destruct (truthy (jwt_iss p)) eqn:Hiss; cbn [negb]; [|settle_trust].
  assert (Hsome : jwt_iss p <> None) by (intros Hnone; rewrite Hnone in Hiss; discriminate).
  destruct (newURL P ("/" +:+ interpolate (jwt_iss p) +:+ "/.well-known/jwks.json")
              TRUST_GATEWAY_URL) as [url|eu] eqn:Hurl; [|settle_trust].
  destruct (jwtVerify P proof url ["ES256"]) as [v|ev] eqn:Hverify; [|settle_trust].
  destruct (option_string_eqb (jwt_sub v) (Some (sha256Base64url P jwe))) eqn:Hsub; cbn [negb].
  2:{ assert (jwt_sub v <> Some (sha256Base64url P jwe))
        by (intros Heq; apply option_string_eqb_eq in Heq; congruence).
      settle_trust. }
  apply option_string_eqb_eq in Hsub.
  settle_trust.
  exists h, p, url, v. repeat split; assumption.
Qed.

End Trust.

(** * The passcode modules *)

Lemma append_cons (x : ascii) (a b : string) : String x a +:+ b = String x (a +:+ b).
Proof. reflexivity. Qed.

Lemma append_assoc (a b c : string) : (a +:+ b) +:+ c = a +:+ (b +:+ c).
Proof.
  induction a as [|x a IH]; [reflexivity|]. now rewrite !append_cons, IH.
Qed.

Lemma append_empty_r (a : string) : a +:+ EmptyString = a.
Proof.
  induction a as [|x a IH]; [reflexivity|]. now rewrite append_cons, IH.
Qed.

Lemma append_length (a b : string) :
  String.length (a +:+ b) = (String.length a + String.length b)%nat.
Proof.
  induction a as [|x a IH]; [reflexivity|].
  rewrite append_cons. cbn [String.length]. now rewrite IH.
Qed.

Lemma toHex_cons (b : byte) (bytes : list byte) :
  toHex (b :: bytes) = padStart 2 "0" (toString16 (Byte.to_N b)) +:+ toHex bytes.
Proof. reflexivity. Qed.

(** Each byte is written as two characters, neither of them a colon,
    that [parseInt] reads back as the byte. *)
Lemma hex_pair (b : byte) :
  exists x y,
    padStart 2 "0" (toString16 (Byte.to_N b)) = String x (String y EmptyString)
    /\ Ascii.eqb x ":" = false
    /\ Ascii.eqb y ":" = false
    /\ ToUint8 (parseInt16 (String x (String y EmptyString))) = b.
Proof. destruct b; eexists _, _; repeat split. Qed.

Lemma toHex_length (bytes : list byte) :
  String.length (toHex bytes) = (2 * length bytes)%nat.
Proof.
  induction bytes as [|b bytes IH]; [reflexivity|].
  rewrite toHex_cons, append_length, IH.
  destruct (hex_pair b) as (x & y & -> & _). cbn [String.length length]. lia.
Qed.

Lemma fromHex_loop_toHex (bytes : list byte) : fromHex_loop (toHex bytes) = bytes.
Proof.
  induction bytes as [|b bytes IH]; [reflexivity|].
  rewrite toHex_cons. destruct (hex_pair b) as (x & y & -> & _ & _ & Hb).
  rewrite !append_cons. change (EmptyString +:+ toHex bytes) with (toHex bytes).
  cbn [fromHex_loop]. now rewrite Hb, IH.
Qed.

(** Hexadecimal text is read back as the bytes it was written from. *)
Lemma fromHex_toHex (bytes : list byte) : fromHex (Some (toHex bytes)) = Ok bytes.
Proof. unfold fromHex. now rewrite fromHex_loop_toHex. Qed.

Lemma split_nonempty (c : ascii) (s : string) : split c s <> [].
Proof.
  destruct s as [|x s]; cbn [split]; [discriminate|].
  destruct (Ascii.eqb x c); [discriminate|]. destruct (split c s); discriminate.
Qed.

Lemma split_toHex (bytes : list byte) (t : string) :
  split ":" (toHex bytes +:+ t)
  = match split ":" t with
    | h :: r => (toHex bytes +:+ h) :: r
    | [] => [toHex bytes]
    end.
Proof.
  induction bytes as [|b bytes IH].
  - change (toHex [] +:+ t) with t.
    destruct (split ":" t) as [|h r] eqn:Hsplit; [|reflexivity].
    now apply split_nonempty in Hsplit.
  - rewrite toHex_cons, append_assoc.
    destruct (hex_pair b) as (x & y & -> & Hx & Hy & _).
    rewrite !append_cons. change (EmptyString +:+ (toHex bytes +:+ t)) with (toHex bytes +:+ t).
    cbn [split]. rewrite Hx, Hy, IH.
    destruct (split ":" t); reflexivity.
Qed.

(** The stored form [salt:key] splits into its two hexadecimal parts. *)
Lemma split_stored (salt key : list byte) :
  split ":" (toHex salt +:+ ":" +:+ toHex key) = [toHex salt; toHex key].
Proof.
  rewrite split_toHex.
  change (":" +:+ toHex key) with (String ":" (toHex key)). cbn [split Ascii.eqb Bool.eqb].
  replace (toHex key) with (toHex key +:+ EmptyString) at 1 by apply append_empty_r.
  rewrite split_toHex. cbn [split]. now rewrite !append_empty_r.
Qed.

Lemma bytes_eqb_refl (a : list byte) : bytes_eqb a a = true.
Proof.
  induction a as [|x a IH]; [reflexivity|]. cbn.
  rewrite IH, andb_true_r. now apply Byte.byte_dec_lb.
Qed.

Section PasscodeModules.
Context (P : Platform).

Lemma deriveKey_agree passcode salt :
  Noble.deriveKey P passcode salt = WebCrypto.deriveKey P passcode salt.
Proof. reflexivity. Qed.

Lemma verifyPasscode_agree passcode stored :
  Noble.verifyPasscode P passcode stored = WebCrypto.verifyPasscode P passcode stored.
Proof.
  unfold Noble.verifyPasscode, WebCrypto.verifyPasscode.
  destruct (fromHex (split ":" stored !! 0%nat)) as [salt|e]; [|reflexivity].
  cbn [mbind result_bind]. now rewrite deriveKey_agree.
Qed.

(** A hash verifies against the passcode it was made from. *)
Lemma verifyPasscode_hashPasscode passcode e :
  Noble.verifyPasscode P passcode (fst (Noble.hashPasscode P passcode e)) = Ok true.
Proof.
  unfold Noble.hashPasscode.
  destruct (getRandomValues PBKDF2_SALT_LENGTH e) as [salt e']. cbn [fst].
  unfold Noble.verifyPasscode. rewrite split_stored.
  cbn [lookup list_lookup]. rewrite !fromHex_toHex. cbn [mbind result_bind].
  rewrite Nat.eqb_refl. cbn [negb]. unfold timingSafeEqual.
  now rewrite Nat.eqb_refl, bytes_eqb_refl.
Qed.

(** C10. The module built on noble-hashes and the module built on
    WebCrypto agree. Both derive the key as PBKDF2 with HMAC-SHA-256 of
    the UTF-8 passcode, PBKDF2_ITERATIONS iterations and 32 bytes of
    output; both write a hash as the hexadecimal salt (16 bytes of
    entropy), a colon and the hexadecimal key, so they produce the same
    string from the same entropy; their [verifyPasscode] functions return
    the same outcome (the same boolean, or the same exception) for every
    passcode and every stored string; and a hash made by either one
    verifies under the other exactly as under its own module, the
    passcode it was made from being accepted. *)
Theorem passcode_modules_agree :
  (forall passcode salt,
     Noble.deriveKey P passcode salt
       = pbkdf2_hmac_sha256 P (utf8_encode P passcode) salt PBKDF2_ITERATIONS 32
     /\ WebCrypto.deriveKey P passcode salt
       = pbkdf2_hmac_sha256 P (utf8_encode P passcode) salt PBKDF2_ITERATIONS 32)
  /\ (forall passcode e,
        let salt := map e (seq 0 PBKDF2_SALT_LENGTH) in
        fst (Noble.hashPasscode P passcode e)
          = toHex salt +:+ ":" +:+ toHex (Noble.deriveKey P passcode salt)
        /\ Noble.hashPasscode P passcode e = WebCrypto.hashPasscode P passcode e)
  /\ (forall passcode stored,
        Noble.verifyPasscode P passcode stored = WebCrypto.verifyPasscode P passcode stored)
  /\ (forall passcode candidate e,
        WebCrypto.verifyPasscode P candidate (fst (Noble.hashPasscode P passcode e))
          = Noble.verifyPasscode P candidate (fst (Noble.hashPasscode P passcode e))
        /\ Noble.verifyPasscode P candidate (fst (WebCrypto.hashPasscode P passcode e))
          = WebCrypto.verifyPasscode P candidate (fst (WebCrypto.hashPasscode P passcode e)))
  /\ (forall passcode e,
        WebCrypto.verifyPasscode P passcode (fst (Noble.hashPasscode P passcode e)) = Ok true
        /\ Noble.verifyPasscode P passcode (fst (WebCrypto.hashPasscode P passcode e)) = Ok true).
Proof.
  split; [intros passcode salt; split; reflexivity|].
  split; [intros passcode e; cbv zeta; split; reflexivity|].
  split; [exact verifyPasscode_agree|].
  split.
  - intros passcode candidate e. split; [symmetry|]; apply verifyPasscode_agree.
  - intros passcode e. split.
    + rewrite <- verifyPasscode_agree. apply verifyPasscode_hashPasscode.
    + change (WebCrypto.hashPasscode P passcode e) with (Noble.hashPasscode P passcode e).
      apply verifyPasscode_hashPasscode.
Qed.

End PasscodeModules.


(** * What holds while KV accepts the TTL *)

Section AcceptedWrites.
Context (P : Platform) (lib : PasscodeModule).

(** X1. A creation request that passes the request schema, whose
    ciphertext has the required header and fits the bound of its tier,
    and whose lifetime min(exp ?? tier default, tier max) is at least the
    minimum TTL of KV, is answered with 201; the locator in the answer
    embeds the drawn identifier, which is the URL-safe unpadded base64 of
    32 bytes of the entropy source, has exactly 43 characters, all of
    them in the base64url alphabet, and is the key under which the
    ciphertext is stored. *)
Theorem creation_yields_43_character_identifier origin req clk e env :
  CreateRequestSchema req = true ->
  validateJweHeader P (cr_payload req) = Ok tt ->
  Z.of_nat (String.length (cr_payload req)) <= tier_bound P req ->
  KV_MINIMUM_TTL <= tier_lifetime P req ->
  (forall e', fst (generateExchangeId e') = base64url (map e' (seq 0 32))
              /\ String.length (fst (generateExchangeId e')) = 43%nat
              /\ base64url_string (fst (generateExchangeId e')))
  /\ exists r id,
       fst (createExchange P lib origin req clk e env) = json (CreateBody r) 201
       /\ res_url r = origin +:+ "/exchange/" +:+ id +:+ "/manifest.json"
       /\ id = drawn_id lib req e
       /\ String.length id = 43%nat
       /\ base64url_string id
       /\ loadPayload (EXCHANGE_BUCKET (snd (createExchange P lib origin req clk e env))) id
          = Some (cr_payload req).
Proof.
  intros Hschema Hheader Hsize Httl. split.
  - intros e'. split; [reflexivity | apply generateExchangeId_spec].
  - rewrite (createExchange_accepted P lib origin req clk e env Hschema Hheader Hsize Httl).
    eexists _, (drawn_id lib req e). cbn [fst snd EXCHANGE_BUCKET res_url].
    repeat split.
    + apply generateExchangeId_spec.
    + apply generateExchangeId_spec.
    + unfold loadPayload, storePayload. apply lookup_insert_eq.
Qed.

(** X2. A retrieval of a passcode-protected exchange that is not expired
    and has fewer than MAX_ATTEMPTS failed attempts, sent with a passcode
    that does not verify, while at least 60 seconds remain before the
    expiry, is answered with 401, the message Invalid passcode and
    remainingAttempts = MAX_ATTEMPTS - (attempts + 1). The record is
    written back under the same key with the counter incremented by one
    and every other field unchanged, with TTL
    max(1, floor((exp - now) / 1000)); no other record changes. When the
    new counter equals MAX_ATTEMPTS the blob of the exchange is gone from
    the bucket, the record is kept and no other blob changes; otherwise
    the bucket is unchanged. *)
Theorem failed_verification_is_counted id req clk env md pc :
  RetrieveParamsSchema id = true ->
  RetrieveRequestSchema req = true ->
  loadMetadata (EXCHANGE_KV env) id (rc_get clk) = Some md ->
  rc_check clk <= exp md ->
  attempts md < MAX_ATTEMPTS ->
  truthy (passcodeHash md) = true ->
  rm_passcode req = Some pc ->
  pm_verifyPasscode lib pc (default EmptyString (passcodeHash md)) = Ok false ->
  KV_MINIMUM_TTL * 1000 <= exp md - rc_update clk ->
  let counted :=
    {| passcodeHash := passcodeHash md; exp := exp md; attempts := attempts md + 1;
       label := label md; createdAt := createdAt md; trusted := trusted md; iss := iss md |} in
  let env' := snd (retrieveManifest lib id req clk env) in
  fst (retrieveManifest lib id req clk env)
  = json (ErrorBody {| error := "Invalid passcode";
                       remainingAttempts := Some (MAX_ATTEMPTS - (attempts md + 1));
                       authRequired := None |}) 401
  /\ EXCHANGE_KV env' !! metadata_key id
     = Some {| kv_value := counted;
               kv_stored_at := rc_put clk;
               kv_expirationTtl := Z.max 1 ((exp md - rc_update clk) / 1000) |}
  /\ (forall k, k <> metadata_key id -> EXCHANGE_KV env' !! k = EXCHANGE_KV env !! k)
  /\ (attempts md + 1 = MAX_ATTEMPTS ->
      EXCHANGE_BUCKET env' !! payload_key id = None
      /\ forall k, k <> payload_key id -> EXCHANGE_BUCKET env' !! k = EXCHANGE_BUCKET env !! k)
  /\ (attempts md + 1 < MAX_ATTEMPTS -> EXCHANGE_BUCKET env' = EXCHANGE_BUCKET env).
Proof.
  intros Hid Hreq Hload Hlive Hopen Hhash Hsome Hverify Hleft. cbv zeta.
  pose proof (supplied_passcode_truthy req pc Hreq Hsome) as Hpc.
  unfold retrieveManifest. rewrite Hid, Hreq, Hload, Hhash, Hsome, Hpc. cbn [andb negb].
  destruct (Z.ltb_spec0 (exp md) (rc_check clk)) as [Hexp|_]; [lia|].
  destruct (Z.leb_spec0 MAX_ATTEMPTS (attempts md)) as [Hlocked|_]; [lia|].
  change (default EmptyString (Some pc)) with pc. rewrite Hverify.
  rewrite updateMetadata_accepted by exact Hleft.
  cbn [fst snd EXCHANGE_KV EXCHANGE_BUCKET attempts exp].
  split; [reflexivity|]. split; [apply lookup_insert_eq|].
  split; [intros k Hk; now apply lookup_insert_ne|]. split.
  - intros Hmax.
    destruct (Z.leb_spec0 (MAX_ATTEMPTS - (attempts md + 1)) 0) as [_|Hpos]; [|lia].
    unfold deletePayload. split; [apply lookup_delete_eq|].
    intros k Hk. now apply lookup_delete_ne.
  - intros Hbelow.
    destruct (Z.leb_spec0 (MAX_ATTEMPTS - (attempts md + 1)) 0) as [Hzero|_]; [lia|reflexivity].
Qed.

(** A retrieval keeps a locked-out identifier locked out. *)
Lemma retrieveManifest_keeps_locked_out id id' req clk env :
  locked_out id env -> locked_out id (snd (retrieveManifest lib id' req clk env)).
Proof.
  intros Hlocked. unfold retrieveManifest.
  destruct (negb _); [exact Hlocked|].
  destruct (loadMetadata (EXCHANGE_KV env) id' (rc_get clk)) as [md|] eqn:Hload;
    [|exact Hlocked].
  assert (Hdel : locked_out id
            {| EXCHANGE_KV := deleteMetadata (EXCHANGE_KV env) id';
               EXCHANGE_BUCKET := deletePayload (EXCHANGE_BUCKET env) id' |}).
  { intros entry. cbn [EXCHANGE_KV]. unfold deleteMetadata, kv_delete.
    intros Hentry. apply lookup_delete_Some in Hentry as [_ Hentry]. now apply Hlocked. }
  destruct (exp md <? rc_check clk); [exact Hdel|].
  destruct (Z.leb_spec0 MAX_ATTEMPTS (attempts md)) as [_|Hopen]; [exact Hdel|].
  unfold sendManifest.
  destruct (truthy (passcodeHash md)).
  - destruct (negb (truthy (rm_passcode req))); [exact Hlocked|].
    destruct (pm_verifyPasscode lib _ _) as [[|]|err].
    + destruct (loadPayload _ _) as [[|? ?]|]; exact Hlocked.
    + destruct (updateMetadata _ _ _ _ _) as [kv'|err] eqn:Hupdate; [|exact Hlocked].
      apply updateMetadata_Ok in Hupdate as ->.
      intros entry. cbn [snd EXCHANGE_KV].
      destruct (decide (metadata_key id' = metadata_key id)) as [Heq|Hne].
      * apply loadMetadata_Some in Hload as (old & Hold & <-).
        rewrite Heq in Hold. apply Hlocked in Hold. lia.
      * rewrite lookup_insert_ne by exact Hne. apply Hlocked.
    + exact Hlocked.
  - destruct (loadPayload _ _) as [[|? ?]|]; exact Hlocked.
Qed.

(** A creation that draws another identifier keeps it locked out. *)
Lemma createExchange_keeps_locked_out id origin req clk e env :
  drawn_id lib req e <> id ->
  locked_out id env -> locked_out id (snd (createExchange P lib origin req clk e env)).
Proof.
  intros Hother Hlocked.
  destruct (Z.eq_dec (status (fst (createExchange P lib origin req clk e env))) 201)
    as [H201|Hnot].
  - destruct (createExchange_201 P lib origin req clk e env H201) as (Hs & Hh & Hz & Httl).
    rewrite (createExchange_accepted P lib origin req clk e env Hs Hh Hz Httl).
    cbv zeta. intros entry. cbn [snd EXCHANGE_KV].
    rewrite lookup_insert_ne; [apply Hlocked|].
    intros Heq. apply Hother. now apply metadata_key_inj.
  - intros entry. rewrite (createExchange_rejected_kv P lib origin req clk e env Hnot).
    apply Hlocked.
Qed.

Lemma serve_keeps_locked_out id later :
  Forall (fun r => ~ creates lib id r) later ->
  forall env, locked_out id env -> locked_out id (snd (serve P lib later env)).
Proof.
  induction 1 as [|r later Hr _ IH]; intros env Hlocked; [exact Hlocked|].
  cbn [serve].
  destruct (handle P lib r env) as [resp env1] eqn:Hhandle.
  specialize (IH env1).
  destruct (serve P lib later env1) as [resps env2]. cbn [snd] in *.
  apply IH.
  replace env1 with (snd (handle P lib r env)) by now rewrite Hhandle.
  destruct r as [origin req clk e|id' req clk]; cbn [handle].
  - apply createExchange_keeps_locked_out; [exact Hr | exact Hlocked].
  - apply retrieveManifest_keeps_locked_out, Hlocked.
Qed.

(** No retrieval of a locked-out identifier delivers the manifest. *)
Lemma locked_out_never_delivers id req clk env :
  locked_out id env -> ~ delivers (fst (retrieveManifest lib id req clk env)).
Proof.
  intros Hlocked. unfold retrieveManifest, delivers.
  destruct (negb _); [cbn; intros [?|[? ?]]; discriminate|].
  destruct (loadMetadata (EXCHANGE_KV env) id (rc_get clk)) as [md|] eqn:Hload;
    [|cbn; intros [?|[? ?]]; discriminate].
  destruct (exp md <? rc_check clk); [cbn; intros [?|[? ?]]; discriminate|].
  destruct (Z.leb_spec0 MAX_ATTEMPTS (attempts md)) as [_|Hopen];
    [cbn; intros [?|[? ?]]; discriminate|].
  apply loadMetadata_Some in Hload as (entry & Hentry & <-).
  apply Hlocked in Hentry. lia.
Qed.

(** One counted failure: the counter of the stored record goes up by
    one, and the blob is gone once the counter reaches the maximum. *)
Lemma invalid_passcode_step id req clk env entry :
  EXCHANGE_KV env !! metadata_key id = Some entry ->
  invalid_passcode (fst (retrieveManifest lib id req clk env)) ->
  exists entry',
    EXCHANGE_KV (snd (retrieveManifest lib id req clk env)) !! metadata_key id = Some entry'
    /\ attempts (kv_value entry') = attempts (kv_value entry) + 1
    /\ passcodeHash (kv_value entry') = passcodeHash (kv_value entry)
    /\ (MAX_ATTEMPTS <= attempts (kv_value entry') ->
        loadPayload (EXCHANGE_BUCKET (snd (retrieveManifest lib id req clk env))) id = None).
Proof.
  intros Hentry [n Hresp]. revert Hresp. unfold retrieveManifest, sendManifest, json, error_only.
  destruct (negb _); [discriminate|].
  destruct (loadMetadata (EXCHANGE_KV env) id (rc_get clk)) as [md|] eqn:Hload; [|discriminate].
  apply loadMetadata_Some in Hload as (entry0 & Hentry0 & <-).
  rewrite Hentry in Hentry0. injection Hentry0 as <-.
  destruct (exp (kv_value entry) <? rc_check clk); [discriminate|].
  destruct (MAX_ATTEMPTS <=? attempts (kv_value entry)); [discriminate|].
  destruct (truthy (passcodeHash (kv_value entry)));
    [|destruct (loadPayload _ _) as [[|? ?]|]; discriminate].
  destruct (negb (truthy (rm_passcode req))); [discriminate|].
  destruct (pm_verifyPasscode lib _ _) as [[|]|err];
    [destruct (loadPayload _ _) as [[|? ?]|]; discriminate| |discriminate].
  destruct (updateMetadata _ _ _ _ _) as [kv'|err] eqn:Hupdate; [|discriminate].
  apply updateMetadata_Ok in Hupdate as ->.
  intros _. cbn [fst snd EXCHANGE_KV EXCHANGE_BUCKET attempts].
  rewrite lookup_insert_eq.
  eexists. split; [reflexivity|]. cbn [kv_value attempts passcodeHash].
  repeat split. intros Hmax.
  destruct (Z.leb_spec0 (MAX_ATTEMPTS - (attempts (kv_value entry) + 1)) 0) as [_|Hpos]; [|lia].
  unfold loadPayload, deletePayload. apply lookup_delete_eq.
Qed.

(** A run of counted failures on one identifier. *)
Lemma invalid_passcode_run id tries :
  forall env entry resps env1,
    EXCHANGE_KV env !! metadata_key id = Some entry ->
    serve P lib (retrievals id tries) env = (resps, env1) ->
    Forall invalid_passcode resps ->
    exists entry1,
      EXCHANGE_KV env1 !! metadata_key id = Some entry1
      /\ attempts (kv_value entry1) = attempts (kv_value entry) + Z.of_nat (length tries)
      /\ (tries <> [] -> MAX_ATTEMPTS <= attempts (kv_value entry1) ->
          loadPayload (EXCHANGE_BUCKET env1) id = None).
Proof.
  induction tries as [|[req clk] tries IH]; intros env entry resps env1 Hentry Hserve Hall.
  - cbn in Hserve. injection Hserve as <- <-. exists entry.
    split; [exact Hentry|]. split; [cbn; lia|]. intros Hne. now destruct Hne.
  - cbn [retrievals map serve handle fst snd] in Hserve.
    destruct (retrieveManifest lib id req clk env) as [resp env'] eqn:Hstep.
    fold (retrievals id tries) in Hserve.
    destruct (serve P lib (retrievals id tries) env') as [resps' env2] eqn:Hrest.
    injection Hserve as <- <-. inversion Hall as [|? ? Hresp Hall']; subst.
    destruct (invalid_passcode_step id req clk env entry Hentry) as (entry' & He' & Ha' & _ & Hb').
    { now rewrite Hstep. }
    rewrite Hstep in He', Hb'. cbn [snd] in He', Hb'.
    destruct (IH env' entry' resps' env2 He' Hrest Hall') as (entry1 & He1 & Ha1 & Hb1).
    exists entry1. split; [exact He1|]. split; [cbn [length]; lia|].
    intros _ Hmax. destruct tries as [|t tries'].
    + cbn in Hrest. injection Hrest as <- <-.
      rewrite He' in He1. injection He1 as <-. apply Hb'. lia.
    + apply Hb1; [discriminate | exact Hmax].
Qed.

(** X3. Take a passcode-protected exchange whose counter is zero and ten
    consecutive retrievals of it that are all answered with 401 and
    Invalid passcode, that is, ten failed verifications that were
    counted. After them the record has attempts = MAX_ATTEMPTS and the
    blob is deleted, and from then on, whatever requests are served
    (retrievals of any identifier with any passcode at any time, and
    creations that do not draw this very identifier), no retrieval of the
    exchange delivers the manifest, not even with the correct passcode. *)
Theorem lockout_is_permanent id env0 entry tries resps env1 :
  EXCHANGE_KV env0 !! metadata_key id = Some entry ->
  truthy (passcodeHash (kv_value entry)) = true ->
  attempts (kv_value entry) = 0 ->
  length tries = 10%nat ->
  serve P lib (retrievals id tries) env0 = (resps, env1) ->
  Forall invalid_passcode resps ->
  (exists entry1,
     EXCHANGE_KV env1 !! metadata_key id = Some entry1
     /\ attempts (kv_value entry1) = MAX_ATTEMPTS)
  /\ loadPayload (EXCHANGE_BUCKET env1) id = None
  /\ forall later,
       Forall (fun r => ~ creates lib id r) later ->
       forall req clk,
         ~ delivers (fst (retrieveManifest lib id req clk (snd (serve P lib later env1)))).
Proof.
  intros Hentry _ Hzero Hlen Hserve Hall.
  destruct (invalid_passcode_run id tries env0 entry resps env1 Hentry Hserve Hall)
    as (entry1 & He1 & Ha1 & Hb1).
  rewrite Hzero, Hlen in Ha1. cbn in Ha1.
  split; [exists entry1; split; [exact He1 | exact Ha1]|].
  split.
  - apply Hb1; [|rewrite Ha1; reflexivity].
    intros ->. discriminate.
  - intros later Hlater req clk. apply locked_out_never_delivers.
    apply serve_keeps_locked_out; [exact Hlater|].
    intros e He. rewrite He1 in He. injection He as <-. rewrite Ha1. reflexivity.
Qed.

End AcceptedWrites.

(** * Further properties of lib/passcode.ts *)

Lemma string_ind2 (Q : string -> Prop) :
  Q EmptyString ->
  (forall a, Q (String a EmptyString)) ->
  (forall a b r, Q r -> Q (String a (String b r))) ->
  forall s, Q s.
Proof.
  intros H0 H1 H2 s.
  enough (Q s /\ forall a, Q (String a s)) as [H _] by exact H.
  induction s as [|x s [IH0 IH1]]; split; auto.
Qed.

Lemma bytes_eqb_eq (a b : list byte) : bytes_eqb a b = true <-> a = b.
Proof.
  split; [|intros ->; apply bytes_eqb_refl].
  revert b. induction a as [|x a IH]; intros [|y b]; cbn [bytes_eqb]; try discriminate;
    [reflexivity|].
  intros Hboth. apply andb_prop in Hboth as [Hxy Hab].
  apply Byte.byte_dec_bl in Hxy. apply IH in Hab. congruence.
Qed.

Lemma bytes_eqb_length (a b : list byte) :
  length a <> length b -> bytes_eqb a b = false.
Proof.
  intros Hne. destruct (bytes_eqb a b) eqn:Heq; [|reflexivity].
  apply bytes_eqb_eq in Heq. subst. contradiction.
Qed.

Lemma decimal_digit_is_digit (b : byte) : is_decimal_digit (decimal_digit b) = true.
Proof. destruct b; reflexivity. Qed.

Lemma hex_pair_lower (b : byte) :
  forallb is_lower_hex_digit
    (list_ascii_of_string (padStart 2 "0" (toString16 (Byte.to_N b)))) = true.
Proof. destruct b; reflexivity. Qed.

Lemma list_ascii_of_string_append (a b : string) :
  list_ascii_of_string (a +:+ b) = (list_ascii_of_string a ++ list_ascii_of_string b)%list.
Proof.
  induction a as [|x a IH]; [reflexivity|]. rewrite append_cons.
  cbn [list_ascii_of_string]. rewrite IH. reflexivity.
Qed.

(** X4. [generatePasscode], in both modules, returns a string of exactly
    PASSCODE_LENGTH = 6 characters, all of them decimal digits, after
    reading six bytes of the entropy source; the digit at each position
    is the byte at that position modulo 10. *)
Theorem generatePasscode_six_digits (e : Entropy) :
  Noble.generatePasscode e = WebCrypto.generatePasscode e
  /\ String.length (fst (Noble.generatePasscode e)) = 6%nat
  /\ decimal_string (fst (Noble.generatePasscode e))
  /\ list_ascii_of_string (fst (Noble.generatePasscode e))
     = map (fun i => ascii_of_N (48 + Byte.to_N (e i) mod 10)) (seq 0 6).
Proof.
  split; [reflexivity|]. split; [reflexivity|].
  unfold Noble.generatePasscode, getRandomValues, decimal_string. cbn [fst].
  rewrite list_ascii_of_string_of_list_ascii. split.
  - apply List.Forall_forall. intros c Hc. apply in_map_iff in Hc as (b & <- & _).
    apply decimal_digit_is_digit.
  - rewrite map_map. reflexivity.
Qed.

(** X5. [toHex] writes two lowercase hexadecimal digits per byte, and
    [fromHex] reads the text back as the same bytes. *)
Theorem toHex_fromHex_inverse (bytes : list byte) :
  String.length (toHex bytes) = (2 * length bytes)%nat
  /\ lower_hex_string (toHex bytes)
  /\ fromHex (Some (toHex bytes)) = Ok bytes.
Proof.
  split; [apply toHex_length|]. split; [|apply fromHex_toHex].
  unfold lower_hex_string.
  induction bytes as [|b bytes IH]; [constructor|].
  rewrite toHex_cons, list_ascii_of_string_append.
  apply Forall_app. split; [|exact IH].
  apply List.Forall_forall. intros c Hc.
  pose proof (hex_pair_lower b) as Hpair. rewrite forallb_forall in Hpair.
  apply Hpair. exact Hc.
Qed.

Lemma fromHex_loop_length (h : string) :
  length (fromHex_loop h) = (String.length h / 2)%nat.
Proof.
  induction h as [|a|a b r IH] using string_ind2; [reflexivity..|].
  cbn [fromHex_loop length String.length]. rewrite IH.
  change (S (S (String.length r))) with (1 * 2 + String.length r)%nat.
  rewrite Nat.div_add_l by discriminate. reflexivity.
Qed.

(** X6. [fromHex] throws a TypeError on [undefined]. On a string it
    never throws, whatever the characters: it returns one byte for each
    complete pair of characters. *)
Theorem fromHex_outcomes (h : string) :
  (exists m, fromHex None = Err (Thrown "TypeError" m))
  /\ exists bytes,
       fromHex (Some h) = Ok bytes /\ length bytes = (String.length h / 2)%nat.
Proof.
  split; [eexists; reflexivity|].
  eexists. split; [reflexivity | apply fromHex_loop_length].
Qed.

(** X7. A string of odd length is read by [fromHex] as the string
    without its last character. *)
Theorem fromHex_drops_odd_character (h : string) (x : ascii) :
  Nat.even (String.length h) = true ->
  fromHex (Some (h +:+ String x EmptyString)) = fromHex (Some h).
Proof.
  unfold fromHex. intros Heven. f_equal. revert Heven.
  induction h as [|a|a b r IH] using string_ind2; [reflexivity|discriminate|].
  intros Heven. rewrite !append_cons. cbn [fromHex_loop]. rewrite IH; [reflexivity|].
  exact Heven.
Qed.

(** X8. A pair of characters whose first is neither a hexadecimal digit,
    nor white space, nor a sign is read by [fromHex] as the byte 0:
    [parseInt] gives NaN and the typed array stores 0. *)
Theorem fromHex_reads_NaN_as_zero (a b : ascii) (r : string) :
  hex_digit_value a = None ->
  is_StrWhiteSpaceChar a = false ->
  a <> "-"%char -> a <> "+"%char ->
  parseInt16 (String a (String b EmptyString)) = None
  /\ exists bytes,
       fromHex (Some r) = Ok bytes
       /\ fromHex (Some (String a (String b r))) = Ok (x00 :: bytes).
Proof.
  intros Hdigit Hspace Hminus Hplus.
  assert (Hnan : parseInt16 (String a (String b EmptyString)) = None).
  { unfold parseInt16. cbn [trimStart]. rewrite Hspace.
    assert (Hzero : a <> "0"%char) by (intros ->; discriminate Hdigit).
    destruct a as [[] [] [] [] [] [] [] []];
      try (exfalso; apply Hminus; reflexivity);
      try (exfalso; apply Hplus; reflexivity);
      try (exfalso; apply Hzero; reflexivity);
      try discriminate Hdigit; reflexivity. }
  split; [exact Hnan|].
  eexists. split; [reflexivity|].
  unfold fromHex. cbn [fromHex_loop]. rewrite Hnan. reflexivity.
Qed.

Lemma split_colon_free (s : string) :
  colon_free s -> split ":" s = [s].
Proof.
  unfold colon_free. induction s as [|x s IH]; [reflexivity|].
  cbn [list_ascii_of_string split]. intros Hall. inversion Hall as [|? ? Hx Hs]; subst.
  rewrite Hx, (IH Hs). reflexivity.
Qed.

Section PasscodeEdges.
Context (P : Platform).

(** X9. A stored string without a colon is never compared: in both
    modules [verifyPasscode] throws a TypeError on it, raised by
    [fromHex] on the missing key part, instead of returning false. *)
Theorem verifyPasscode_without_colon_throws passcode stored :
  colon_free stored ->
  Noble.verifyPasscode P passcode stored
  = Err (Thrown "TypeError" "Cannot read properties of undefined (reading 'length')")
  /\ WebCrypto.verifyPasscode P passcode stored = Noble.verifyPasscode P passcode stored.
Proof.
  intros Hfree. split; [|symmetry; apply verifyPasscode_agree].
  unfold Noble.verifyPasscode. rewrite (split_colon_free stored Hfree).
  reflexivity.
Qed.

(** X10. A hash made by [hashPasscode] from a passcode is accepted for a
    candidate exactly when PBKDF2 derives the same key from the candidate
    and the salt of the hash; on such a hash [verifyPasscode] never
    throws, and the two modules give the same answer. *)
Theorem verifyPasscode_compares_derived_keys passcode candidate e :
  let salt := map e (seq 0 PBKDF2_SALT_LENGTH) in
  Noble.verifyPasscode P candidate (fst (Noble.hashPasscode P passcode e))
    = Ok (bytes_eqb (Noble.deriveKey P passcode salt) (Noble.deriveKey P candidate salt))
  /\ (Noble.verifyPasscode P candidate (fst (Noble.hashPasscode P passcode e)) = Ok true
      <-> Noble.deriveKey P candidate salt = Noble.deriveKey P passcode salt)
  /\ WebCrypto.verifyPasscode P candidate (fst (WebCrypto.hashPasscode P passcode e))
     = Noble.verifyPasscode P candidate (fst (Noble.hashPasscode P passcode e)).
Proof.
  cbv zeta.
  assert (Hcompute :
    Noble.verifyPasscode P candidate (fst (Noble.hashPasscode P passcode e))
    = Ok (bytes_eqb (Noble.deriveKey P passcode (map e (seq 0 PBKDF2_SALT_LENGTH)))
                    (Noble.deriveKey P candidate (map e (seq 0 PBKDF2_SALT_LENGTH))))).
  { unfold Noble.hashPasscode, getRandomValues. cbn [fst].
    unfold Noble.verifyPasscode. rewrite split_stored.
    cbn [lookup list_lookup]. rewrite !fromHex_toHex. cbn [mbind result_bind].
    unfold timingSafeEqual.
    destruct (Nat.eqb_spec
                (length (Noble.deriveKey P passcode (map e (seq 0 PBKDF2_SALT_LENGTH))))
                (length (Noble.deriveKey P candidate (map e (seq 0 PBKDF2_SALT_LENGTH)))))
      as [Hlen|Hlen]; cbn [negb]; [reflexivity|].
    rewrite bytes_eqb_length by exact Hlen. reflexivity. }
  split; [exact Hcompute|]. split.
  - rewrite Hcompute. split.
    + intros Hok. assert (Heq : bytes_eqb (Noble.deriveKey P passcode (map e (seq 0 PBKDF2_SALT_LENGTH))) (Noble.deriveKey P candidate (map e (seq 0 PBKDF2_SALT_LENGTH))) = true) by congruence.
      apply bytes_eqb_eq in Heq. symmetry. exact Heq.
    + intros ->. rewrite bytes_eqb_refl. reflexivity.
  - symmetry. apply verifyPasscode_agree.
Qed.

End PasscodeEdges.

(** * Further properties of lib/crypto.ts *)

Section CryptoEdges.
Context (P : Platform).

(** X11. [base64url] writes ceil(4n/3) characters for n bytes, all of
    them in the URL-safe alphabet: no padding, no plus sign and no slash
    are left. The digest string of [sha256Base64url] is the [base64url]
    of the SHA-256 of the UTF-8 encoding of its input and has that
    length. *)
Theorem base64url_shape (bytes : list byte) (input : string) :
  String.length (base64url bytes) = ((4 * length bytes + 2) / 3)%nat
  /\ base64url_string (base64url bytes)
  /\ sha256Base64url P input = base64url (sha256 P (utf8_encode P input))
  /\ String.length (sha256Base64url P input)
     = ((4 * length (sha256 P (utf8_encode P input)) + 2) / 3)%nat.
Proof.
  destruct (base64url_spec bytes) as [Hlen Halphabet].
  split; [exact Hlen|]. split; [exact Halphabet|]. split; [reflexivity|].
  unfold sha256Base64url. apply base64url_spec.
Qed.

(** X12. [validateJweHeader] returns normally exactly when the protected
    header decodes and has alg = dir and enc = A256GCM. An exception of
    the decoder leaves the function as it is; alg is checked before enc,
    so a header with the wrong alg is reported for its alg whatever its
    enc; the message quotes the value found, [undefined] when the field
    is absent. *)
Theorem validateJweHeader_outcomes (jwe : string) :
  (validateJweHeader P jwe = Ok tt <->
   exists h, decodeProtectedHeader P jwe = Ok h
             /\ hdr_alg h = Some "dir" /\ hdr_enc h = Some "A256GCM")
  /\ (forall err, decodeProtectedHeader P jwe = Err err -> validateJweHeader P jwe = Err err)
  /\ (forall h, decodeProtectedHeader P jwe = Ok h -> hdr_alg h <> Some "dir" ->
        validateJweHeader P jwe
        = Err (Thrown "Error"
                 ("Invalid JWE alg: expected " +:+ dquote +:+ "dir" +:+ dquote +:+ ", got "
                    +:+ dquote +:+ default "undefined" (hdr_alg h) +:+ dquote)))
  /\ (forall h, decodeProtectedHeader P jwe = Ok h -> hdr_alg h = Some "dir" ->
        hdr_enc h <> Some "A256GCM" ->
        validateJweHeader P jwe
        = Err (Thrown "Error"
                 ("Invalid JWE enc: expected " +:+ dquote +:+ "A256GCM" +:+ dquote +:+ ", got "
                    +:+ dquote +:+ default "undefined" (hdr_enc h) +:+ dquote))).
Proof.
  unfold validateJweHeader.
  destruct (decodeProtectedHeader P jwe) as [h|err0] eqn:Hdecode; cbn [mbind result_bind].
  - destruct (option_string_eqb (hdr_alg h) (Some "dir")) eqn:Halg; cbn [negb].
    + apply option_string_eqb_eq in Halg.
      destruct (option_string_eqb (hdr_enc h) (Some "A256GCM")) eqn:Henc; cbn [negb].
      * apply option_string_eqb_eq in Henc.
        split; [split; [intros _; exists h; auto | reflexivity]|].
        split; [discriminate|].
        split; intros h' [= <-]; congruence.
      * assert (Hno : hdr_enc h <> Some "A256GCM").
        { intros Heq. apply option_string_eqb_eq in Heq. congruence. }
        split; [split; [discriminate | intros (h' & [= <-] & _ & Heq); contradiction]|].
        split; [discriminate|].
        split; intros h' [= <-]; [congruence|].
        intros _ _. destruct (hdr_enc h); reflexivity.
    + assert (Hno : hdr_alg h <> Some "dir").
      { intros Heq. apply option_string_eqb_eq in Heq. congruence. }
      split; [split; [discriminate | intros (h' & [= <-] & Heq & _); contradiction]|].
      split; [discriminate|].
      split; intros h' [= <-]; [|congruence].
      intros _. destruct (hdr_alg h); reflexivity.
  - split; [split; [discriminate | intros (h & [=] & _)]|].
    split; [intros err [= <-]; reflexivity|].
    split; intros h [=].
Qed.

End CryptoEdges.

(** * Further properties of lib/storage.ts *)

Lemma list_ascii_of_string_inj (a b : string) :
  list_ascii_of_string a = list_ascii_of_string b -> a = b.
Proof.
  intros H. rewrite <- (string_of_list_ascii_of_string a), <- (string_of_list_ascii_of_string b).
  now rewrite H.
Qed.

Lemma append_inv_tail (a b s : string) : a +:+ s = b +:+ s -> a = b.
Proof.
  intros H. apply list_ascii_of_string_inj.
  apply (f_equal list_ascii_of_string) in H.
  rewrite !list_ascii_of_string_append in H.
  exact (app_inv_tail _ _ _ H).
Qed.

Lemma payload_key_inj (a b : string) : payload_key a = payload_key b -> a = b.
Proof.
  unfold payload_key, R2_PREFIX. cbn. intros H. injection H as H.
  exact (append_inv_tail a b "/payload.jwe" H).
Qed.

(** X13. The blob operations of [lib/storage.ts] act on the key
    exchanges/{id}/payload.jwe, and distinct identifiers have distinct
    keys: a stored blob is loaded back, a deleted blob is no longer
    found, and neither operation changes what is loaded under another
    identifier. *)
Theorem payload_storage_laws (bucket : R2Bucket) (id id' jwe : string) :
  payload_key id = "exchanges/" +:+ id +:+ "/payload.jwe"
  /\ loadPayload (storePayload bucket id jwe) id = Some jwe
  /\ loadPayload (deletePayload bucket id) id = None
  /\ (id' <> id ->
      loadPayload (storePayload bucket id jwe) id' = loadPayload bucket id'
      /\ loadPayload (deletePayload bucket id) id' = loadPayload bucket id').
Proof.
  unfold loadPayload, storePayload, deletePayload.
  split; [reflexivity|]. split; [apply lookup_insert_eq|]. split; [apply lookup_delete_eq|].
  intros Hne.
  assert (Hkey : payload_key id <> payload_key id').
  { intros Heq. apply payload_key_inj in Heq. congruence. }
  split; [apply lookup_insert_ne | apply lookup_delete_ne]; exact Hkey.
Qed.

(** X14. [storeMetadata] with a TTL of at least 60 seconds writes the
    record under the key exchange:{id}; [loadMetadata] returns it until
    the TTL has elapsed, counted from the write, and nothing from then
    on; what is loaded under another identifier does not change, and
    [deleteMetadata] makes the record unreadable at once. *)
Theorem metadata_lives_for_its_ttl (kv : KVNamespace) (id id' : string)
    (md : ExchangeMetadata) (ttl now : Z) :
  KV_MINIMUM_TTL <= ttl ->
  metadata_key id = "exchange:" +:+ id
  /\ exists kv',
       storeMetadata kv id md ttl now = Ok kv'
       /\ (forall t, loadMetadata kv' id t
                     = if t <? now + ttl * 1000 then Some md else None)
       /\ (id' <> id -> forall t, loadMetadata kv' id' t = loadMetadata kv id' t)
       /\ (forall t, loadMetadata (deleteMetadata kv' id) id t = None).
Proof.
  intros Httl. split; [reflexivity|].
  unfold storeMetadata. rewrite kv_put_accepted by exact Httl.
  eexists. split; [reflexivity|].
  unfold loadMetadata, deleteMetadata, kv_get, kv_delete. split; [|split].
  - intros t. rewrite lookup_insert_eq. reflexivity.
  - intros Hne t. rewrite lookup_insert_ne; [reflexivity|].
    intros Heq. apply metadata_key_inj in Heq. congruence.
  - intros t. rewrite lookup_delete_eq. reflexivity.
Qed.

(** X15. [updateMetadata], when at least 60 seconds remain before the
    expiry, rewrites the record with the whole seconds that remain as
    TTL: the record is readable until the write time plus
    floor((exp - now) / 1000) seconds, which is at most the expiry
    shifted by the delay of the write, and less than one second before
    it. *)
Theorem updateMetadata_keeps_the_expiry (kv : KVNamespace) (id : string)
    (md : ExchangeMetadata) (dateNow now : Z) :
  KV_MINIMUM_TTL * 1000 <= exp md - dateNow ->
  exists kv',
    updateMetadata kv id md dateNow now = Ok kv'
    /\ (forall t, loadMetadata kv' id t
                  = if t <? now + (exp md - dateNow) / 1000 * 1000 then Some md else None)
    /\ exp md + (now - dateNow) - 1000 < now + (exp md - dateNow) / 1000 * 1000
       <= exp md + (now - dateNow).
Proof.
  intros Hleft. rewrite updateMetadata_accepted by exact Hleft.
  assert (Hdiv : KV_MINIMUM_TTL <= (exp md - dateNow) / 1000)
    by (apply Z.div_le_lower_bound; lia).
  eexists. split; [reflexivity|]. split.
  - intros t. unfold loadMetadata, kv_get. rewrite lookup_insert_eq.
    unfold kv_alive. cbn [kv_stored_at kv_expirationTtl kv_value].
    unfold KV_MINIMUM_TTL in Hdiv. rewrite Z.max_r by lia. reflexivity.
  - pose proof (Z.div_mod (exp md - dateNow) 1000 ltac:(lia)) as Hdm.
    pose proof (Z.mod_pos_bound (exp md - dateNow) 1000 ltac:(lia)) as Hbound.
    generalize dependent ((exp md - dateNow) / 1000).
    generalize dependent ((exp md - dateNow) mod 1000). intros. lia.
Qed.

(** * Further properties of routes/exchange.ts *)

(** The result of the trust verification is trusted exactly when it
    names an issuer. *)
Lemma verifyExchangeProof_issuer (P : Platform) jwe proof :
  vr_trusted (verifyExchangeProof P jwe proof)
  = truthy (vr_iss (verifyExchangeProof P jwe proof)).
Proof.
  unfold verifyExchangeProof, verifyExchangeProof_try.
  destruct (decodeProtectedHeader P proof) as [h|]; cbn [mbind result_bind]; [|reflexivity].
  destruct (negb _); [reflexivity|].
  destruct (decodeJwt P proof) as [p|]; cbn [mbind result_bind]; [|reflexivity].
  destruct (truthy (jwt_iss p)) eqn:Hiss; cbn [negb]; [|reflexivity].
  destruct (newURL P _ _) as [url|]; cbn [mbind result_bind]; [|reflexivity].
  destruct (jwtVerify P proof url _) as [v|]; cbn [mbind result_bind]; [|reflexivity].
  destruct (negb _); [reflexivity|]. cbn. now rewrite Hiss.
Qed.

Lemma proofResult_issuer (P : Platform) req :
  vr_trusted (proofResult P req) = truthy (vr_iss (proofResult P req)).
Proof.
  unfold proofResult. destruct (truthy (cr_proof req)); [|reflexivity].
  apply verifyExchangeProof_issuer.
Qed.

Section RouteEdges.
Context (P : Platform) (lib : PasscodeModule).

(** X16. The creation handler rejects in this order and stores nothing
    when it does: a body that fails the request schema is answered with
    400; a ciphertext whose header is refused is answered with 400 and
    the message of the exception; a ciphertext longer than the bound of
    its tier is answered with 413 and a message that names the tier and
    its limit, 5MB for a trusted request and 10KB for an untrusted
    one. *)
Theorem rejected_creation_stores_nothing origin req clk e env :
  (CreateRequestSchema req = false ->
   createExchange P lib origin req clk e env = (json ValidationFailure 400, env))
  /\ (forall err,
        CreateRequestSchema req = true ->
        validateJweHeader P (cr_payload req) = Err err ->
        createExchange P lib origin req clk e env
        = (json (error_only (error_message err)) 400, env))
  /\ (CreateRequestSchema req = true ->
      validateJweHeader P (cr_payload req) = Ok tt ->
      tier_bound P req < Z.of_nat (String.length (cr_payload req)) ->
      createExchange P lib origin req clk e env
      = (json (error_only
                 (if vr_trusted (proofResult P req)
                  then "Payload too large for trusted tier (max 5MB)"
                  else "Payload too large for untrusted tier (max 10KB)")) 413, env)).
Proof.
  unfold createExchange, tier_bound. split; [|split].
  - intros ->. reflexivity.
  - intros err -> ->. reflexivity.
  - intros -> -> Hsize. cbn [negb].
    destruct (Z.ltb_spec0
                (if vr_trusted (proofResult P req) then MAX_PAYLOAD_SIZE
                 else UNTRUSTED_MAX_PAYLOAD_SIZE)
                (Z.of_nat (String.length (cr_payload req)))) as [_|Hle]; [|lia].
    destruct (vr_trusted (proofResult P req)); reflexivity.
Qed.

(** X17. In the answer of a successful creation and in the record it
    stores, the trust fields agree: the answer is marked trusted exactly
    when it names an issuer, the issuer is then a non-empty string and
    the one of the verification result, and a request without a proof is
    never trusted. The record starts with zero attempts, carries the
    label of the request and expires at the time of the answer. *)
Theorem creation_answer_and_record_agree origin req clk e env r :
  fst (createExchange P lib origin req clk e env) = json (CreateBody r) 201 ->
  (res_trusted r = true <-> exists i, res_iss r = Some i)
  /\ (forall i, res_iss r = Some i -> i <> EmptyString /\ vr_iss (proofResult P req) = Some i)
  /\ (truthy (cr_proof req) = false -> res_trusted r = false /\ res_iss r = None)
  /\ res_passcode r = None
  /\ exists entry,
       EXCHANGE_KV (snd (createExchange P lib origin req clk e env))
         !! metadata_key (drawn_id lib req e) = Some entry
       /\ trusted (kv_value entry) = res_trusted r
       /\ (res_trusted r = true -> iss (kv_value entry) = res_iss r)
       /\ attempts (kv_value entry) = 0
       /\ label (kv_value entry) = cr_label req
       /\ exp (kv_value entry) = res_exp r
       /\ createdAt (kv_value entry) = cc_created clk
       /\ (truthy (passcodeHash (kv_value entry)) = true <-> res_flag r = "P").
Proof.
  intros Hanswer.
  assert (H201 : status (fst (createExchange P lib origin req clk e env)) = 201)
    by (rewrite Hanswer; reflexivity).
  apply createExchange_201 in H201 as (Hschema & Hheader & Hsize & Httl).
  pose proof (createExchange_accepted P lib origin req clk e env Hschema Hheader Hsize Httl)
    as Hrun. cbv zeta in Hrun.
  rewrite Hrun in Hanswer |- *. cbn [fst snd EXCHANGE_KV] in *.
  injection Hanswer as <-. cbn [res_trusted res_iss res_passcode res_exp res_flag].
  pose proof (proofResult_issuer P req) as Hiss.
  split; [|split; [|split; [|split]]].
  - rewrite Hiss. destruct (truthy (vr_iss (proofResult P req))) eqn:Htruthy.
    + split; [intros _|reflexivity].
      destruct (vr_iss (proofResult P req)) as [i|]; [now exists i | discriminate].
    + split; [discriminate | intros (i & [=])].
  - intros i. destruct (truthy (vr_iss (proofResult P req))) eqn:Htruthy; [|discriminate].
    intros Hsome. rewrite Hsome in Htruthy. split; [|exact Hsome].
    intros ->. discriminate.
  - intros Hproof. unfold proofResult. rewrite Hproof. split; reflexivity.
  - reflexivity.
  - eexists. split; [apply lookup_insert_eq|].
    cbn [kv_value trusted iss attempts label exp createdAt passcodeHash].
    split; [reflexivity|]. split.
    { rewrite Hiss. intros ->. reflexivity. }
    split; [reflexivity|]. split; [reflexivity|]. split; [reflexivity|].
    split; [reflexivity|].
    destruct (truthy
                (if truthy (cr_passcode req)
                 then Some (fst (pm_hashPasscode lib (default EmptyString (cr_passcode req)) e))
                 else None)) eqn:Hhash.
    + rewrite Hhash. split; reflexivity.
    + split; [intros Hno; discriminate Hno | discriminate].
Qed.

(** X18. Delivery is read-only and repeatable. A retrieval is answered
    with 200 only for a record that is readable, not expired and below
    MAX_ATTEMPTS, and when the record has a passcode hash only with a
    passcode that [verifyPasscode] accepts; the manifest then embeds the
    stored ciphertext as its single file, neither the record nor the blob
    changes, and the attempt counter is not reset. *)
Theorem delivery_is_read_only id req clk env :
  status (fst (retrieveManifest lib id req clk env)) = 200 ->
  snd (retrieveManifest lib id req clk env) = env
  /\ exists md jwe,
       loadMetadata (EXCHANGE_KV env) id (rc_get clk) = Some md
       /\ rc_check clk <= exp md
       /\ attempts md < MAX_ATTEMPTS
       /\ loadPayload (EXCHANGE_BUCKET env) id = Some jwe
       /\ jwe <> EmptyString
       /\ fst (retrieveManifest lib id req clk env) = json (manifest_of jwe) 200
       /\ (truthy (passcodeHash md) = true ->
           exists pc, rm_passcode req = Some pc
                      /\ pm_verifyPasscode lib pc (default EmptyString (passcodeHash md))
                         = Ok true).
Proof.
  unfold retrieveManifest.
  destruct (negb _); [discriminate|].
  destruct (loadMetadata (EXCHANGE_KV env) id (rc_get clk)) as [md|]; [|discriminate].
  destruct (Z.ltb_spec0 (exp md) (rc_check clk)) as [|Hlive]; [discriminate|].
  destruct (Z.leb_spec0 MAX_ATTEMPTS (attempts md)) as [|Hopen]; [discriminate|].
  assert (Hsend :
    status (fst (sendManifest id env)) = 200 ->
    snd (sendManifest id env) = env
    /\ exists jwe, loadPayload (EXCHANGE_BUCKET env) id = Some jwe
                   /\ jwe <> EmptyString
                   /\ fst (sendManifest id env) = json (manifest_of jwe) 200).
  { unfold sendManifest.
    destruct (loadPayload (EXCHANGE_BUCKET env) id) as [[|c s]|]; try discriminate.
    intros _. split; [reflexivity|]. exists (String c s).
    split; [reflexivity|]. split; [discriminate | reflexivity]. }
  destruct (truthy (passcodeHash md)) eqn:Hhash.
  - destruct (rm_passcode req) as [pc|] eqn:Hpc; [|discriminate].
    destruct (truthy (Some pc)); cbn [negb]; [|discriminate].
    change (default EmptyString (Some pc)) with pc.
    destruct (pm_verifyPasscode lib pc (default EmptyString (passcodeHash md)))
      as [[|]|err] eqn:Hverify.
    + intros H200. destruct (Hsend H200) as (Henv & jwe & Hblob & Hne & Hfst).
      split; [exact Henv|]. exists md, jwe.
      split; [reflexivity|]. split; [lia|]. split; [lia|]. split; [exact Hblob|].
      split; [exact Hne|]. split; [exact Hfst|].
      intros _. now exists pc.
    + destruct (updateMetadata _ _ _ _ _); discriminate.
    + discriminate.
  - intros H200. destruct (Hsend H200) as (Henv & jwe & Hblob & Hne & Hfst).
    split; [exact Henv|]. exists md, jwe.
    split; [reflexivity|]. split; [lia|]. split; [lia|]. split; [exact Hblob|].
    split; [exact Hne|]. split; [exact Hfst|].
    intros Hno. congruence.
Qed.

(** X19. A retrieval finds a readable record past its expiry, or with
    MAX_ATTEMPTS failed attempts: it deletes the record and the blob of
    that identifier and nothing else, whatever passcode the body carries,
    and is answered with 404 and Exchange has expired, or with 429 and
    zero remaining attempts; expiry is checked first. Any later retrieval
    of the identifier from these bindings is answered with 404 and
    Exchange not found or expired. *)
Theorem expired_or_locked_record_is_purged id req clk env md :
  RetrieveParamsSchema id = true ->
  RetrieveRequestSchema req = true ->
  loadMetadata (EXCHANGE_KV env) id (rc_get clk) = Some md ->
  exp md < rc_check clk \/ MAX_ATTEMPTS <= attempts md ->
  let out := retrieveManifest lib id req clk env in
  fst out
  = (if exp md <? rc_check clk
     then json (error_only "Exchange has expired") 404
     else json (ErrorBody {| error := "Too many failed attempts. Exchange has been locked.";
                             remainingAttempts := Some 0;
                             authRequired := None |}) 429)
  /\ EXCHANGE_KV (snd out) !! metadata_key id = None
  /\ loadPayload (EXCHANGE_BUCKET (snd out)) id = None
  /\ (forall k, k <> metadata_key id -> EXCHANGE_KV (snd out) !! k = EXCHANGE_KV env !! k)
  /\ (forall k, k <> payload_key id -> EXCHANGE_BUCKET (snd out) !! k = EXCHANGE_BUCKET env !! k)
  /\ forall req' clk',
       RetrieveRequestSchema req' = true ->
       retrieveManifest lib id req' clk' (snd out)
       = (json (error_only "Exchange not found or expired") 404, snd out).
Proof.
  intros Hid Hreq Hload Hcase. cbv zeta.
  assert (Hrun :
    retrieveManifest lib id req clk env
    = (if exp md <? rc_check clk
       then json (error_only "Exchange has expired") 404
       else json (ErrorBody {| error := "Too many failed attempts. Exchange has been locked.";
                               remainingAttempts := Some 0;
                               authRequired := None |}) 429,
       {| EXCHANGE_KV := deleteMetadata (EXCHANGE_KV env) id;
          EXCHANGE_BUCKET := deletePayload (EXCHANGE_BUCKET env) id |})).
  { unfold retrieveManifest. rewrite Hid, Hreq, Hload. cbn [andb negb].
    destruct (Z.ltb_spec0 (exp md) (rc_check clk)) as [_|Hlive]; [reflexivity|].
    destruct (Z.leb_spec0 MAX_ATTEMPTS (attempts md)) as [_|Hopen]; [reflexivity|lia]. }
  rewrite Hrun. cbn [fst snd EXCHANGE_KV EXCHANGE_BUCKET].
  unfold deleteMetadata, kv_delete, deletePayload, loadPayload.
  split; [reflexivity|]. split; [apply lookup_delete_eq|]. split; [apply lookup_delete_eq|].
  split; [intros k Hk; apply lookup_delete_ne; congruence|].
  split; [intros k Hk; apply lookup_delete_ne; congruence|].
  intros req' clk' Hreq'. unfold retrieveManifest. rewrite Hid, Hreq'. cbn [andb negb].
  unfold loadMetadata, kv_get. cbn [EXCHANGE_KV]. rewrite lookup_delete_eq. reflexivity.
Qed.


End RouteEdges.

Section ProtectedExchange.
Context (P : Platform).

(** X21. With the passcode module of the repository, an exchange
    created with a passcode is delivered to a retrieval that sends the
    same passcode before the expiry: the creation is answered with 201
    and the flag P, the stored hash is the hexadecimal salt, a colon and
    the hexadecimal key derived by PBKDF2, and the retrieval is answered
    with 200 and a manifest that embeds the ciphertext. *)
Theorem passcode_protected_delivery origin req cclk e env pc rreq rclk :
  CreateRequestSchema req = true ->
  validateJweHeader P (cr_payload req) = Ok tt ->
  Z.of_nat (String.length (cr_payload req)) <= tier_bound P req ->
  KV_MINIMUM_TTL <= tier_lifetime P req ->
  cr_passcode req = Some pc ->
  RetrieveRequestSchema rreq = true ->
  rm_passcode rreq = Some pc ->
  rc_get rclk < cc_put cclk + tier_lifetime P req * 1000 ->
  rc_check rclk <= cc_expiry cclk + tier_lifetime P req * 1000 ->
  let lib := Noble.module P in
  let created := createExchange P lib origin req cclk e env in
  let id := drawn_id lib req e in
  (exists r, fst created = json (CreateBody r) 201 /\ res_flag r = "P")
  /\ (exists entry,
        EXCHANGE_KV (snd created) !! metadata_key id = Some entry
        /\ passcodeHash (kv_value entry)
           = Some (toHex (map e (seq 0 PBKDF2_SALT_LENGTH)) +:+ ":"
                     +:+ toHex (Noble.deriveKey P pc (map e (seq 0 PBKDF2_SALT_LENGTH)))))
  /\ retrieveManifest lib id rreq rclk (snd created)
     = (json (manifest_of (cr_payload req)) 200, snd created).
Proof.
  intros Hschema Hheader Hsize Httl Hpc Hreq Hsame Hget Hcheck. cbv zeta.
  rewrite (createExchange_accepted P (Noble.module P) origin req cclk e env
             Hschema Hheader Hsize Httl).
  assert (Hlen : truthy (cr_passcode req) = true).
  { unfold CreateRequestSchema in Hschema. rewrite Hpc in Hschema |- *.
    destruct pc; [|reflexivity]. cbn in Hschema.
    rewrite andb_false_r in Hschema. discriminate Hschema. }
  rewrite Hlen, Hpc. change (default EmptyString (Some pc)) with pc.
  cbn [pm_hashPasscode Noble.module].
  assert (Hhash : fst (Noble.hashPasscode P pc e)
                  = toHex (map e (seq 0 PBKDF2_SALT_LENGTH)) +:+ ":"
                      +:+ toHex (Noble.deriveKey P pc (map e (seq 0 PBKDF2_SALT_LENGTH))))
    by reflexivity.
  assert (Htruthy : truthy (Some (fst (Noble.hashPasscode P pc e))) = true).
  { rewrite Hhash. cbn [truthy].
    destruct (toHex (map e (seq 0 PBKDF2_SALT_LENGTH))); reflexivity. }
  rewrite Htruthy. cbn [fst snd EXCHANGE_KV].
  split; [eexists; split; reflexivity|].
  split; [eexists; split; [apply lookup_insert_eq | cbn [kv_value passcodeHash]; now rewrite Hhash]|].
  destruct (cr_payload req) as [|c s] eqn:Hpayload.
  { unfold CreateRequestSchema in Hschema. rewrite Hpayload in Hschema. discriminate Hschema. }
  apply (verified_passcode_delivers (Noble.module P) _ rreq rclk _
           {| passcodeHash := Some (fst (Noble.hashPasscode P pc e));
              exp := cc_expiry cclk + tier_lifetime P req * 1000;
              attempts := 0;
              label := cr_label req;
              createdAt := cc_created cclk;
              trusted := vr_trusted (proofResult P req);
              iss := vr_iss (proofResult P req) |} pc c s).
  - unfold RetrieveParamsSchema.
    destruct (generateExchangeId_spec
                (snd (Noble.hashPasscode P pc e))) as [Hid _].
    unfold drawn_id. rewrite Hlen, Hpc. cbn [pm_hashPasscode Noble.module].
    change (default EmptyString (Some pc)) with pc. rewrite Hid. reflexivity.
  - exact Hreq.
  - unfold loadMetadata, kv_get. cbn [EXCHANGE_KV]. rewrite lookup_insert_eq.
    unfold kv_alive. cbn [kv_stored_at kv_expirationTtl kv_value].
    destruct (Z.ltb_spec0 (rc_get rclk) (cc_put cclk + tier_lifetime P req * 1000));
      [reflexivity | lia].
  - cbn [exp]. exact Hcheck.
  - cbn [attempts]. unfold MAX_ATTEMPTS. lia.
  - exact Htruthy.
  - exact Hsame.
  - cbn [passcodeHash pm_verifyPasscode Noble.module].
    change (default EmptyString (Some ?x)) with x.
    apply verifyPasscode_hashPasscode.
  - cbn [EXCHANGE_BUCKET]. unfold loadPayload, storePayload. apply lookup_insert_eq.
Qed.

End ProtectedExchange.

(** * The bindings that the service can reach *)

Section Reachable.
Context (P : Platform) (lib : PasscodeModule).

Lemma consistent_empty : consistent empty_bindings.
Proof. intros id entry Hentry. cbn in Hentry. rewrite lookup_empty in Hentry. discriminate. Qed.

Lemma consistent_purge id env :
  consistent env ->
  consistent {| EXCHANGE_KV := deleteMetadata (EXCHANGE_KV env) id;
                EXCHANGE_BUCKET := deletePayload (EXCHANGE_BUCKET env) id |}.
Proof.
  intros Hinv id' entry. cbn [EXCHANGE_KV EXCHANGE_BUCKET].
  unfold deleteMetadata, kv_delete, deletePayload, loadPayload.
  intros Hentry. apply lookup_delete_Some in Hentry as [Hne Hentry].
  destruct (Hinv id' entry Hentry) as [Hrange Hblob]. split; [exact Hrange|].
  intros Hopen. rewrite lookup_delete_ne; [exact (Hblob Hopen)|].
  intros Heq. apply payload_key_inj in Heq. congruence.
Qed.

Lemma consistent_store id payload c s kv md now ttl env :
  consistent env ->
  payload = String c s ->
  attempts md = 0 ->
  kv = EXCHANGE_KV env
  \/ kv = <[metadata_key id :=
              {| kv_value := md; kv_stored_at := now; kv_expirationTtl := ttl |}]>
            (EXCHANGE_KV env) ->
  consistent {| EXCHANGE_KV := kv;
                EXCHANGE_BUCKET := storePayload (EXCHANGE_BUCKET env) id payload |}.
Proof.
  intros Hinv -> Hzero Hkv id' entry. cbn [EXCHANGE_KV EXCHANGE_BUCKET].
  unfold storePayload, loadPayload. intros Hentry.
  destruct (decide (id' = id)) as [->|Hne].
  - rewrite lookup_insert_eq. destruct Hkv as [->| ->].
    + destruct (Hinv id entry Hentry) as [Hrange _]. split; [exact Hrange | eauto].
    + rewrite lookup_insert_eq in Hentry. injection Hentry as <-. cbn [kv_value].
      rewrite Hzero. unfold MAX_ATTEMPTS. split; [lia | eauto].
  - rewrite lookup_insert_ne by (intros Heq; apply payload_key_inj in Heq; congruence).
    apply Hinv. destruct Hkv as [->| ->]; [exact Hentry|].
    rewrite lookup_insert_ne in Hentry; [exact Hentry|].
    intros Heq. apply metadata_key_inj in Heq. congruence.
Qed.

Lemma createExchange_consistent origin req clk e env :
  consistent env -> consistent (snd (createExchange P lib origin req clk e env)).
Proof.
  intros Hinv. unfold createExchange.
  destruct (CreateRequestSchema req) eqn:Hschema; cbn [negb]; [|exact Hinv].
  destruct (validateJweHeader P (cr_payload req)) as [[]|err]; [|exact Hinv].
  destruct (_ <? _); [exact Hinv|].
  destruct (if truthy (cr_passcode req) then _ else _) as [h e1].
  destruct (generateExchangeId e1) as [i e2].
  destruct (cr_payload req) as [|c s] eqn:Hpayload.
  { unfold CreateRequestSchema in Hschema. rewrite Hpayload in Hschema. discriminate Hschema. }
  unfold storeMetadata, kv_put.
  destruct (_ <? KV_MINIMUM_TTL); cbn [snd].
  - eapply (consistent_store i _ c s _
              {| passcodeHash := None; exp := 0; attempts := 0; label := None;
                 createdAt := 0; trusted := false; iss := None |} 0 0);
      [exact Hinv | reflexivity | reflexivity | left; reflexivity].
  - eapply consistent_store; [exact Hinv | reflexivity | | right; reflexivity]. reflexivity.
Qed.

Lemma retrieveManifest_consistent id req clk env :
  consistent env -> consistent (snd (retrieveManifest lib id req clk env)).
Proof.
  intros Hinv. unfold retrieveManifest.
  destruct (negb _); [exact Hinv|].
  destruct (loadMetadata (EXCHANGE_KV env) id (rc_get clk)) as [md|] eqn:Hload;
    [|exact Hinv].
  destruct (exp md <? rc_check clk); [apply consistent_purge; exact Hinv|].
  destruct (Z.leb_spec0 MAX_ATTEMPTS (attempts md)) as [_|Hopen];
    [apply consistent_purge; exact Hinv|].
  unfold sendManifest.
  destruct (truthy (passcodeHash md)).
  - destruct (negb (truthy (rm_passcode req))); [exact Hinv|].
    destruct (pm_verifyPasscode lib _ _) as [[|]|err].
    + destruct (loadPayload _ _) as [[|? ?]|]; exact Hinv.
    + destruct (updateMetadata _ _ _ _ _) as [kv'|err] eqn:Hupdate; [|exact Hinv].
      apply updateMetadata_Ok in Hupdate as ->. cbn [snd attempts exp].
      apply loadMetadata_Some in Hload as (old & Hold & <-).
      destruct (Hinv id old Hold) as [Hrange Hblob].
      intros id' entry. cbn [EXCHANGE_KV EXCHANGE_BUCKET]. intros Hentry.
      destruct (decide (id' = id)) as [->|Hne].
      * rewrite lookup_insert_eq in Hentry. injection Hentry as <-. cbn [kv_value attempts].
        split; [lia|]. intros Hbelow.
        destruct (Z.leb_spec0 (MAX_ATTEMPTS - (attempts (kv_value old) + 1)) 0) as [Hzero|_];
          [lia|]. apply Hblob. lia.
      * rewrite lookup_insert_ne in Hentry
          by (intros Heq; apply metadata_key_inj in Heq; congruence).
        destruct (Hinv id' entry Hentry) as [Hrange' Hblob']. split; [exact Hrange'|].
        intros Hbelow. destruct (_ <=? 0); [|exact (Hblob' Hbelow)].
        unfold deletePayload, loadPayload. rewrite lookup_delete_ne; [exact (Hblob' Hbelow)|].
        intros Heq. apply payload_key_inj in Heq. congruence.
    + exact Hinv.
  - destruct (loadPayload _ _) as [[|? ?]|]; exact Hinv.
Qed.

Lemma serve_consistent rs env :
  consistent env -> consistent (snd (serve P lib rs env)).
Proof.
  revert env. induction rs as [|r rs IH]; intros env Hinv; [exact Hinv|].
  cbn [serve].
  assert (Hstep : consistent (snd (handle P lib r env))).
  { destruct r; cbn [handle];
      [apply createExchange_consistent | apply retrieveManifest_consistent]; exact Hinv. }
  destruct (handle P lib r env) as [resp env1]. cbn [snd] in Hstep.
  specialize (IH env1 Hstep).
  destruct (serve P lib rs env1) as [resps env2]. exact IH.
Qed.

(** X22. Whatever requests a fresh deployment has served, creations and
    retrievals in any order, answered or failed, with any clock readings:
    every record counts between 0 and MAX_ATTEMPTS failed attempts; a
    record that counts fewer than MAX_ATTEMPTS has its non-empty
    ciphertext in the bucket; so no retrieval is answered with Payload
    not found, and the remaining attempts reported after a failed
    verification lie between 0 and MAX_ATTEMPTS - 1. *)
Theorem reachable_bindings_are_consistent (rs : list Request) :
  let env := snd (serve P lib rs empty_bindings) in
  consistent env
  /\ (forall id req clk,
        body (fst (retrieveManifest lib id req clk env)) <> error_only "Payload not found")
  /\ (forall id req clk n,
        fst (retrieveManifest lib id req clk env)
        = json (ErrorBody {| error := "Invalid passcode";
                             remainingAttempts := Some n;
                             authRequired := None |}) 401 ->
        0 <= n < MAX_ATTEMPTS).
Proof.
  cbv zeta.
  pose proof (serve_consistent rs empty_bindings consistent_empty) as Hinv.
  set (env := snd (serve P lib rs empty_bindings)) in *. clearbody env.
  split; [exact Hinv|]. split.
  - intros id req clk. unfold retrieveManifest.
    destruct (negb _); [discriminate|].
    destruct (loadMetadata (EXCHANGE_KV env) id (rc_get clk)) as [md|] eqn:Hload;
      [|discriminate].
    destruct (exp md <? rc_check clk); [discriminate|].
    destruct (Z.leb_spec0 MAX_ATTEMPTS (attempts md)) as [_|Hopen]; [discriminate|].
    apply loadMetadata_Some in Hload as (entry & Hentry & <-).
    destruct (Hinv id entry Hentry) as [_ Hblob].
    destruct (Hblob ltac:(lia)) as (c & s & Hfound).
    assert (Hsend : body (fst (sendManifest id env)) <> error_only "Payload not found")
      by (unfold sendManifest; rewrite Hfound; discriminate).
    destruct (truthy (passcodeHash (kv_value entry))); [|exact Hsend].
    destruct (negb (truthy (rm_passcode req))); [discriminate|].
    destruct (pm_verifyPasscode lib _ _) as [[|]|err]; [exact Hsend| |discriminate].
    destruct (updateMetadata _ _ _ _ _); discriminate.
  - intros id req clk n. unfold retrieveManifest.
    destruct (negb _); [discriminate|].
    destruct (loadMetadata (EXCHANGE_KV env) id (rc_get clk)) as [md|] eqn:Hload;
      [|discriminate].
    destruct (exp md <? rc_check clk); [discriminate|].
    destruct (Z.leb_spec0 MAX_ATTEMPTS (attempts md)) as [_|Hopen]; [discriminate|].
    apply loadMetadata_Some in Hload as (entry & Hentry & <-).
    destruct (Hinv id entry Hentry) as [Hrange _].
    assert (Hsend : forall r, fst (sendManifest id env) = json (ErrorBody r) 401 -> 0 <= n < MAX_ATTEMPTS).
    { intros r. unfold sendManifest.
      destruct (loadPayload _ _) as [[|? ?]|]; discriminate. }
    destruct (truthy (passcodeHash (kv_value entry))); [|apply Hsend].
    destruct (negb (truthy (rm_passcode req))); [discriminate|].
    destruct (pm_verifyPasscode lib _ _) as [[|]|err]; [apply Hsend| |discriminate].
    destruct (updateMetadata _ _ _ _ _); [|discriminate].
    cbn [fst attempts]. intros [= <-]. lia.
Qed.

End Reachable.

(** * The statements on concrete requests *)

Module Runs.
Import Fixture.

Lemma round_trip_run :
  (cr_passcode open_request = None
   /\ status (fst (createExchange platform lib origin open_request (at_time 0) (counting 0)
                     no_bindings)) = 201
   /\ cc_expiry (at_time 0) <= cc_put (at_time 0)
   /\ RetrieveRequestSchema anonymous = true
   /\ rm_passcode anonymous = None
   /\ rc_get (reading 5) <= rc_check (reading 5))
  /\ fst (retrieveManifest lib (id_of open_request) anonymous (reading 5)
            (after open_request (at_time 0)))
     = json (manifest_of jwe) 200.
Proof.
  assert (Hcreate : cc_expiry (at_time 0) <= cc_put (at_time 0)) by (cbn; lia).
  assert (Hread : rc_get (reading 5) <= rc_check (reading 5)) by (cbn; lia).
  split; [repeat split; assumption|].
  destruct (round_trip platform lib origin open_request (at_time 0) (counting 0) no_bindings
              anonymous (reading 5) eq_refl eq_refl Hcreate eq_refl eq_refl Hread)
    as (_ & _ & r & id & Hanswer & -> & _ & Hback).
  apply Hback.
  replace r with
    (match body (fst (createExchange platform lib origin open_request (at_time 0)
                        (counting 0) no_bindings)) with
     | CreateBody r' => r'
     | _ => r
     end) by (rewrite Hanswer; reflexivity).
  vm_compute. reflexivity.
Defined.

Lemma short_creation_run :
  (CreateRequestSchema short_request = true
   /\ validateJweHeader platform (cr_payload short_request) = Ok tt
   /\ Z.of_nat (String.length (cr_payload short_request)) <= tier_bound platform short_request
   /\ tier_lifetime platform short_request < KV_MINIMUM_TTL)
  /\ status (fst (createExchange platform lib origin short_request (at_time 0) (counting 0)
                    no_bindings)) = 500
  /\ EXCHANGE_KV (snd (createExchange platform lib origin short_request (at_time 0)
                         (counting 0) no_bindings)) = EXCHANGE_KV no_bindings
  /\ loadPayload (EXCHANGE_BUCKET (snd (createExchange platform lib origin short_request
                                          (at_time 0) (counting 0) no_bindings)))
       (drawn_id lib short_request (counting 0)) = Some (cr_payload short_request).
Proof.
  assert (Hsize : Z.of_nat (String.length (cr_payload short_request))
                  <= tier_bound platform short_request) by (vm_compute; discriminate).
  assert (Httl : tier_lifetime platform short_request < KV_MINIMUM_TTL)
    by (vm_compute; reflexivity).
  split; [repeat split; assumption|].
  destruct (creation_below_minimum_ttl_fails platform lib origin short_request (at_time 0)
              (counting 0) no_bindings eq_refl eq_refl Hsize Httl)
    as (_ & [err Hanswer] & Hkv & Hblob & _).
  split; [rewrite Hanswer; reflexivity|]. split; [exact Hkv | exact Hblob].
Defined.

Lemma effective_expiry_run :
  status (fst (createExchange platform lib origin trusted_request (at_time 7) (counting 0)
                 no_bindings)) = 201
  /\ exists r entry,
       body (fst (createExchange platform lib origin trusted_request (at_time 7) (counting 0)
                    no_bindings)) = CreateBody r
       /\ res_exp r = 7 + 259200 * 1000
       /\ EXCHANGE_KV (after trusted_request (at_time 7))
            !! metadata_key (id_of trusted_request) = Some entry
       /\ exp (kv_value entry) = 7 + 259200 * 1000
       /\ kv_expirationTtl entry = 259200.
Proof.
  split; [reflexivity|].
  exact (effective_expiry platform lib origin trusted_request (at_time 7) (counting 0)
           no_bindings eq_refl).
Defined.

Lemma open_creation_run :
  status (fst (createExchange platform lib origin open_request (at_time 0) (counting 0)
                 no_bindings)) = 201
  /\ exists r entry,
       body (fst (createExchange platform lib origin open_request (at_time 0) (counting 0)
                    no_bindings)) = CreateBody r
       /\ res_passcode r = None
       /\ EXCHANGE_KV (after open_request (at_time 0))
            !! metadata_key (id_of open_request) = Some entry
       /\ (cr_passcode open_request = None ->
           res_flag r = EmptyString /\ passcodeHash (kv_value entry) = None).
Proof.
  split; [reflexivity|].
  exact (creation_answer_has_no_passcode platform lib origin open_request (at_time 0)
           (counting 0) no_bindings eq_refl).
Defined.

(** C3, as stated, fails: this creation request carries no passcode, it
    is answered with 201, and the answer carries no passcode either. *)
Lemma no_passcode_is_generated :
  cr_passcode open_request = None
  /\ fst (createExchange platform lib origin open_request (at_time 0) (counting 0) no_bindings)
     = json (CreateBody
               {| res_url := origin +:+ "/exchange/"
                               +:+ "AAECAwQFBgcICQoLDA0ODxAREhMUFRYXGBkaGxwdHh8"
                               +:+ "/manifest.json";
                  res_exp := 3600000;
                  res_flag := EmptyString;
                  res_passcode := None;
                  res_trusted := false;
                  res_iss := None |}) 201
  /\ ~ (exists r p,
          body (fst (createExchange platform lib origin open_request (at_time 0) (counting 0)
                       no_bindings)) = CreateBody r
          /\ res_passcode r = Some p).
Proof.
  split; [reflexivity|]. split; [vm_compute; reflexivity|].
  intros (r & p & Hbody & Hpass). vm_compute in Hbody. injection Hbody as <-.
  discriminate Hpass.
Qed.

Lemma auth_required_run :
  (RetrieveParamsSchema (id_of protected_request) = true
   /\ RetrieveRequestSchema anonymous = true
   /\ rm_passcode anonymous = None)
  /\ retrieveManifest lib (id_of protected_request) anonymous (reading 5)
       (after protected_request (at_time 0))
     = (json (ErrorBody {| error := "Passcode required";
                           remainingAttempts := None;
                           authRequired := Some true |}) 401,
        after protected_request (at_time 0)).
Proof.
  split; [repeat split|].
  eapply (auth_required_changes_nothing lib (id_of protected_request) anonymous (reading 5)
            (after protected_request (at_time 0))).
  - reflexivity.
  - reflexivity.
  - vm_compute. reflexivity.
  - vm_compute. discriminate.
  - vm_compute. reflexivity.
  - reflexivity.
  - reflexivity.
Defined.

Lemma late_failure_run :
  (RetrieveParamsSchema (id_of minute_protected_request) = true
   /\ RetrieveRequestSchema (with_passcode "0000") = true
   /\ rm_passcode (with_passcode "0000") = Some "0000"
   /\ status (fst (createExchange platform lib origin minute_protected_request (at_time 0)
                     (counting 0) no_bindings)) = 201)
  /\ status (fst (retrieveManifest lib (id_of minute_protected_request) (with_passcode "0000")
                    (reading 5) (after minute_protected_request (at_time 0)))) = 500
  /\ snd (retrieveManifest lib (id_of minute_protected_request) (with_passcode "0000")
            (reading 5) (after minute_protected_request (at_time 0)))
     = after minute_protected_request (at_time 0).
Proof.
  split; [repeat split|].
  edestruct (failed_verification_in_the_last_minute_is_not_counted lib
               (id_of minute_protected_request) (with_passcode "0000") (reading 5)
               (after minute_protected_request (at_time 0)))
    as (_ & [err Hanswer] & _).
  - reflexivity.
  - reflexivity.
  - vm_compute. reflexivity.
  - vm_compute. discriminate.
  - vm_compute. reflexivity.
  - reflexivity.
  - reflexivity.
  - vm_compute. reflexivity.
  - vm_compute. reflexivity.
  - rewrite Hanswer. split; reflexivity.
Defined.

Lemma expired_and_absent_run :
  (RetrieveParamsSchema (id_of minute_request) = true
   /\ RetrieveRequestSchema anonymous = true
   /\ loadMetadata (EXCHANGE_KV no_bindings) (id_of minute_request) (rc_get (reading 60002))
      = None)
  /\ fst (retrieveManifest lib (id_of minute_request) anonymous (reading 60002)
            (after minute_request late_write))
     = json (error_only "Exchange has expired") 404
  /\ fst (retrieveManifest lib (id_of minute_request) anonymous (reading 60002) no_bindings)
     = json (error_only "Exchange not found or expired") 404.
Proof.
  split; [repeat split|].
  edestruct (expired_and_absent_share_status lib (id_of minute_request) anonymous
               (reading 60002) (after minute_request late_write) no_bindings)
    as (Hexpired & Habsent & _).
  - reflexivity.
  - reflexivity.
  - vm_compute. reflexivity.
  - vm_compute. reflexivity.
  - reflexivity.
  - split; [exact Hexpired | exact Habsent].
Defined.

(** C4, as stated, fails: the creation of this exchange, for a lifetime
    of 60 seconds, is answered with 201; 60.002 seconds later its record
    still exists and the clock is past its expiry, and the answer differs
    from the answer for the same identifier when no record exists. *)
Lemma expiry_is_distinguishable :
  status (fst (createExchange platform lib origin minute_request late_write (counting 0)
                 no_bindings)) = 201
  /\ (exp <$> loadMetadata (EXCHANGE_KV (after minute_request late_write))
                (id_of minute_request) (rc_get (reading 60002))) = Some 60000
  /\ 60000 < rc_check (reading 60002)
  /\ loadMetadata (EXCHANGE_KV no_bindings) (id_of minute_request) (rc_get (reading 60002))
     = None
  /\ fst (retrieveManifest lib (id_of minute_request) anonymous (reading 60002)
            (after minute_request late_write))
     = json (error_only "Exchange has expired") 404
  /\ fst (retrieveManifest lib (id_of minute_request) anonymous (reading 60002) no_bindings)
     = json (error_only "Exchange not found or expired") 404
  /\ fst (retrieveManifest lib (id_of minute_request) anonymous (reading 60002)
            (after minute_request late_write))
     <> fst (retrieveManifest lib (id_of minute_request) anonymous (reading 60002) no_bindings).
Proof.
  split; [vm_compute; reflexivity|].
  split; [vm_compute; reflexivity|]. split; [reflexivity|]. split; [reflexivity|].
  split; [vm_compute; reflexivity|]. split; [vm_compute; reflexivity|].
  vm_compute. discriminate.
Qed.

Lemma verification_run :
  verifyExchangeProof platform jwe (header_RS256 +:+ ".acme-bound.c2lnbmVk") = untrusted
  /\ verifyExchangeProof platform jwe (header_ES256 +:+ ".anonymous.c2lnbmVk") = untrusted
  /\ verifyExchangeProof platform jwe (header_ES256 +:+ ".ghost-bound.c2lnbmVk") = untrusted
  /\ verifyExchangeProof platform jwe (header_ES256 +:+ ".acme-bound.Zm9yZ2Vk") = untrusted
  /\ verifyExchangeProof platform jwe (header_ES256 +:+ ".acme-other.c2lnbmVk") = untrusted
  /\ vr_trusted (verifyExchangeProof platform jwe (header_ES256 +:+ ".acme-bound.c2lnbmVk"))
     = true.
Proof.
  split.
  { destruct (verification_is_fail_closed platform jwe
                (header_RS256 +:+ ".acme-bound.c2lnbmVk")) as (_ & _ & Halg & _).
    eapply Halg; [vm_compute; reflexivity | discriminate]. }
  split.
  { destruct (verification_is_fail_closed platform jwe
                (header_ES256 +:+ ".anonymous.c2lnbmVk")) as (_ & _ & _ & Hiss & _).
    eapply Hiss; [vm_compute; reflexivity | reflexivity]. }
  split.
  { destruct (verification_is_fail_closed platform jwe
                (header_ES256 +:+ ".ghost-bound.c2lnbmVk")) as (_ & _ & _ & _ & Hfetch & _).
    eapply Hfetch; vm_compute; reflexivity. }
  split.
  { destruct (verification_is_fail_closed platform jwe
                (header_ES256 +:+ ".acme-bound.Zm9yZ2Vk")) as (_ & _ & _ & _ & Hsig & _).
    eapply Hsig; vm_compute; reflexivity. }
  split.
  { destruct (verification_is_fail_closed platform jwe
                (header_ES256 +:+ ".acme-other.c2lnbmVk")) as (_ & _ & _ & _ & _ & Hsub & _).
    eapply Hsub; [vm_compute; reflexivity.. | vm_compute; discriminate]. }
  destruct (verification_is_fail_closed platform jwe
              (header_ES256 +:+ ".acme-bound.c2lnbmVk")) as (_ & _ & _ & _ & _ & _ & Hok).
  apply Hok. eexists _, _, _, _. repeat split; vm_compute; reflexivity.
Defined.

Lemma passcode_modules_run :
  Noble.verifyPasscode platform "482910"
    (fst (WebCrypto.hashPasscode platform "482910" (counting 0))) = Ok true
  /\ WebCrypto.verifyPasscode platform "482911"
       (fst (Noble.hashPasscode platform "482910" (counting 0)))
     = Noble.verifyPasscode platform "482911"
         (fst (Noble.hashPasscode platform "482910" (counting 0))).
Proof.
  destruct (passcode_modules_agree platform) as (_ & _ & _ & Hcross & Hown).
  split; [apply Hown | apply Hcross].
Defined.

Ltac late_failure :=
  split; [reflexivity|]; eexists _, _;
  split; [vm_compute; reflexivity|];
  split; [vm_compute; discriminate|];
  split; [vm_compute; reflexivity|];
  split; [vm_compute; reflexivity|];
  split; [reflexivity|];
  split; vm_compute; reflexivity.

Lemma last_minute_run :
  (RetrieveParamsSchema (id_of minute_protected_request) = true
   /\ length wrong_tries = 10%nat
   /\ Forall (late_failed_verification lib (id_of minute_protected_request)
                (after minute_protected_request (at_time 0))) wrong_tries)
  /\ Forall (fun r => status r = 500)
       (fst (serve platform lib (retrievals (id_of minute_protected_request) wrong_tries)
               (after minute_protected_request (at_time 0))))
  /\ retrieveManifest lib (id_of minute_protected_request) (with_passcode "482910") (reading 6)
       (snd (serve platform lib (retrievals (id_of minute_protected_request) wrong_tries)
               (after minute_protected_request (at_time 0))))
     = (json (manifest_of "eyJhbGciOiJkaXIiLCJlbmMiOiJBMjU2R0NNIn0..aXY.Y2lwaGVy.dGFn") 200,
        after minute_protected_request (at_time 0)).
Proof.
  assert (Hall : Forall (late_failed_verification lib (id_of minute_protected_request)
                           (after minute_protected_request (at_time 0))) wrong_tries).
  { unfold wrong_tries. cbn [repeat].
    repeat (constructor; [late_failure|]). constructor. }
  split; [split; [reflexivity | split; [reflexivity | exact Hall]]|].
  destruct (failed_verifications_in_the_last_minute_never_lock platform lib
              (id_of minute_protected_request) (after minute_protected_request (at_time 0))
              wrong_tries eq_refl Hall) as (Hstatus & _ & _ & Hcorrect).
  split; [exact Hstatus|].
  eapply Hcorrect.
  - reflexivity.
  - vm_compute. reflexivity.
  - vm_compute. discriminate.
  - vm_compute. reflexivity.
  - vm_compute. reflexivity.
  - reflexivity.
  - vm_compute. reflexivity.
  - vm_compute. reflexivity.
Defined.

Lemma creation_run :
  (CreateRequestSchema protected_request = true
   /\ validateJweHeader platform (cr_payload protected_request) = Ok tt
   /\ Z.of_nat (String.length (cr_payload protected_request))
      <= tier_bound platform protected_request
   /\ KV_MINIMUM_TTL <= tier_lifetime platform protected_request)
  /\ fst (createExchange platform lib origin protected_request (at_time 0) (counting 0)
            no_bindings)
     = json (CreateBody
               {| res_url := origin +:+ "/exchange/"
                               +:+ "EBESExQVFhcYGRobHB0eHyAhIiMkJSYnKCkqKywtLi8"
                               +:+ "/manifest.json";
                  res_exp := 600000;
                  res_flag := "P";
                  res_passcode := None;
                  res_trusted := false;
                  res_iss := None |}) 201
  /\ String.length (id_of protected_request) = 43%nat.
Proof.
  assert (Hsize : Z.of_nat (String.length (cr_payload protected_request))
                  <= tier_bound platform protected_request) by (vm_compute; discriminate).
  assert (Httl : KV_MINIMUM_TTL <= tier_lifetime platform protected_request)
    by (vm_compute; discriminate).
  split; [repeat split; assumption|].
  destruct (creation_yields_43_character_identifier platform lib origin protected_request
              (at_time 0) (counting 0) no_bindings eq_refl eq_refl Hsize Httl)
    as (_ & r & id & Hanswer & _ & -> & Hlen & _).
  split; [vm_compute; reflexivity | exact Hlen].
Defined.

Lemma counted_failure_run :
  (RetrieveParamsSchema (id_of protected_request) = true
   /\ RetrieveRequestSchema (with_passcode "0000") = true
   /\ rm_passcode (with_passcode "0000") = Some "0000")
  /\ (fst (retrieveManifest lib (id_of protected_request) (with_passcode "0000") (reading 5)
             (after protected_request (at_time 0)))
      = json (ErrorBody {| error := "Invalid passcode";
                           remainingAttempts := Some 9;
                           authRequired := None |}) 401
      /\ kv_expirationTtl <$>
           (EXCHANGE_KV (snd (retrieveManifest lib (id_of protected_request)
                                (with_passcode "0000") (reading 5)
                                (after protected_request (at_time 0))))
              !! metadata_key (id_of protected_request))
         = Some 599
      /\ EXCHANGE_BUCKET (snd (retrieveManifest lib (id_of protected_request)
                                 (with_passcode "0000") (reading 5)
                                 (after protected_request (at_time 0))))
         = EXCHANGE_BUCKET (after protected_request (at_time 0)))
  /\ fst (retrieveManifest lib (id_of protected_request) (with_passcode "0000") (reading 5)
            nine_failures)
     = json (ErrorBody {| error := "Invalid passcode";
                          remainingAttempts := Some 0;
                          authRequired := None |}) 401
  /\ EXCHANGE_BUCKET nine_failures !! payload_key (id_of protected_request) = Some jwe
  /\ EXCHANGE_BUCKET (snd (retrieveManifest lib (id_of protected_request)
                             (with_passcode "0000") (reading 5) nine_failures))
       !! payload_key (id_of protected_request) = None.
Proof.
  split; [repeat split|]. split.
  - edestruct (failed_verification_is_counted lib (id_of protected_request)
                 (with_passcode "0000") (reading 5) (after protected_request (at_time 0)))
      as (Hanswer & Hrecord & _ & _ & Hbucket).
    + reflexivity.
    + reflexivity.
    + vm_compute. reflexivity.
    + vm_compute. discriminate.
    + vm_compute. reflexivity.
    + reflexivity.
    + reflexivity.
    + vm_compute. reflexivity.
    + vm_compute. discriminate.
    + split; [exact Hanswer|]. split; [rewrite Hrecord; reflexivity|].
      apply Hbucket. vm_compute. reflexivity.
  - edestruct (failed_verification_is_counted lib (id_of protected_request)
                 (with_passcode "0000") (reading 5) nine_failures)
      as (Hanswer & _ & _ & Hblob & _).
    + reflexivity.
    + reflexivity.
    + vm_compute. reflexivity.
    + vm_compute. discriminate.
    + vm_compute. reflexivity.
    + reflexivity.
    + reflexivity.
    + vm_compute. reflexivity.
    + vm_compute. discriminate.
    + split; [exact Hanswer|]. split; [vm_compute; reflexivity|].
      apply Hblob. reflexivity.
Defined.

Lemma lockout_run :
  (length wrong_tries = 10%nat
   /\ Forall invalid_passcode
        (fst (serve platform lib (retrievals (id_of protected_request) wrong_tries)
                (after protected_request (at_time 0)))))
  /\ loadPayload
       (EXCHANGE_BUCKET
          (snd (serve platform lib (retrievals (id_of protected_request) wrong_tries)
                  (after protected_request (at_time 0)))))
       (id_of protected_request) = None
  /\ ~ delivers
        (fst (retrieveManifest lib (id_of protected_request) (with_passcode "482910")
                (reading 6)
                (snd (serve platform lib
                        [PostManifest (id_of protected_request) (with_passcode "0000")
                           (reading 5)]
                        (snd (serve platform lib
                                (retrievals (id_of protected_request) wrong_tries)
                                (after protected_request (at_time 0)))))))).
Proof.
  assert (Hall : Forall invalid_passcode
            (fst (serve platform lib (retrievals (id_of protected_request) wrong_tries)
                    (after protected_request (at_time 0))))).
  { vm_compute. repeat (constructor; [eexists; reflexivity|]). constructor. }
  split; [split; [reflexivity | exact Hall]|].
  edestruct (fun entry Hentry Hhash Hzero =>
               lockout_is_permanent platform lib (id_of protected_request)
                 (after protected_request (at_time 0)) entry wrong_tries _ _
                 Hentry Hhash Hzero eq_refl (surjective_pairing _) Hall)
    as (_ & Hblob & Hnever).
  - vm_compute. reflexivity.
  - vm_compute. reflexivity.
  - reflexivity.
  - split; [exact Hblob|].
    apply Hnever. constructor; [|constructor]. intros Hcreates. exact Hcreates.
Defined.

End Runs.

(** * The further properties on concrete inputs *)

Module EdgeRuns.
Import Fixture.

Lemma generatePasscode_run :
  String.length (fst (Noble.generatePasscode (counting 250))) = 6%nat
  /\ decimal_string (fst (Noble.generatePasscode (counting 250))).
Proof.
  destruct (generatePasscode_six_digits (counting 250)) as (_ & Hlen & Hdigits & _).
  split; [exact Hlen | exact Hdigits].
Defined.

Lemma hex_inverse_run :
  fromHex (Some (toHex [x00; x0a; xff])) = Ok [x00; x0a; xff].
Proof.
  destruct (toHex_fromHex_inverse [x00; x0a; xff]) as (_ & _ & Hback). exact Hback.
Defined.

Lemma fromHex_run :
  exists bytes, fromHex (Some "0a1") = Ok bytes /\ length bytes = (String.length "0a1" / 2)%nat.
Proof.
  destruct (fromHex_outcomes "0a1") as (_ & Hbytes). exact Hbytes.
Defined.

Lemma odd_character_run :
  Nat.even (String.length "0a1b") = true
  /\ fromHex (Some ("0a1b" +:+ String "c" EmptyString)) = fromHex (Some "0a1b").
Proof.
  split; [reflexivity|].
  exact (fromHex_drops_odd_character "0a1b" "c" eq_refl).
Defined.

Lemma NaN_run :
  (hex_digit_value "z" = None /\ is_StrWhiteSpaceChar "z" = false
   /\ "z"%char <> "-"%char /\ "z"%char <> "+"%char)
  /\ parseInt16 (String "z" (String "9" EmptyString)) = None
  /\ exists bytes,
       fromHex (Some "ff") = Ok bytes
       /\ fromHex (Some (String "z" (String "9" "ff"))) = Ok (x00 :: bytes).
Proof.
  assert (Hminus : "z"%char <> "-"%char) by discriminate.
  assert (Hplus : "z"%char <> "+"%char) by discriminate.
  split; [repeat split; assumption|].
  exact (fromHex_reads_NaN_as_zero "z" "9" "ff" eq_refl eq_refl Hminus Hplus).
Defined.

Lemma without_colon_run :
  colon_free "deadbeef"
  /\ Noble.verifyPasscode platform "482910" "deadbeef"
     = Err (Thrown "TypeError" "Cannot read properties of undefined (reading 'length')")
  /\ WebCrypto.verifyPasscode platform "482910" "deadbeef"
     = Noble.verifyPasscode platform "482910" "deadbeef".
Proof.
  assert (Hfree : colon_free "deadbeef").
  { unfold colon_free. cbn [list_ascii_of_string].
    repeat (apply List.Forall_cons; [reflexivity|]). apply List.Forall_nil. }
  split; [exact Hfree|].
  exact (verifyPasscode_without_colon_throws platform "482910" "deadbeef" Hfree).
Defined.

Lemma derived_keys_run :
  Noble.verifyPasscode platform "0000" (fst (Noble.hashPasscode platform "482910" (counting 0)))
  = Ok (bytes_eqb
          (Noble.deriveKey platform "482910" (map (counting 0) (seq 0 PBKDF2_SALT_LENGTH)))
          (Noble.deriveKey platform "0000" (map (counting 0) (seq 0 PBKDF2_SALT_LENGTH)))).
Proof.
  exact (proj1 (verifyPasscode_compares_derived_keys platform "482910" "0000" (counting 0))).
Defined.

Lemma base64url_run :
  String.length (base64url [x00; x0a; xff; xfb]) = ((4 * length [x00; x0a; xff; xfb] + 2) / 3)%nat
  /\ base64url_string (base64url [x00; x0a; xff; xfb]).
Proof.
  destruct (base64url_shape platform [x00; x0a; xff; xfb] jwe) as (Hlen & Halphabet & _).
  split; [exact Hlen | exact Halphabet].
Defined.

Lemma weak_header_run :
  (decodeProtectedHeader platform jwe_A128
   = Ok {| hdr_alg := Some "dir"; hdr_enc := Some "A128GCM"; hdr_kid := None |}
   /\ Some "A128GCM" <> Some "A256GCM")
  /\ validateJweHeader platform jwe_A128
     = Err (Thrown "Error"
              ("Invalid JWE enc: expected " +:+ dquote +:+ "A256GCM" +:+ dquote +:+ ", got "
                 +:+ dquote
                 +:+ default "undefined"
                       (hdr_enc {| hdr_alg := Some "dir"; hdr_enc := Some "A128GCM";
                                   hdr_kid := None |})
                 +:+ dquote)).
Proof.
  assert (Hdecode : decodeProtectedHeader platform jwe_A128
                    = Ok {| hdr_alg := Some "dir"; hdr_enc := Some "A128GCM";
                            hdr_kid := None |}) by (vm_compute; reflexivity).
  assert (Henc : Some "A128GCM" <> Some "A256GCM") by discriminate.
  split; [split; assumption|].
  destruct (validateJweHeader_outcomes platform jwe_A128) as (_ & _ & _ & Hwrong).
  exact (Hwrong _ Hdecode eq_refl Henc).
Defined.

Lemma payload_storage_run :
  "b" <> "a"
  /\ loadPayload (storePayload ∅ "a" jwe) "b" = loadPayload ∅ "b"
  /\ loadPayload (deletePayload ∅ "a") "b" = loadPayload ∅ "b".
Proof.
  assert (Hne : "b" <> "a") by discriminate.
  split; [exact Hne|].
  destruct (payload_storage_laws ∅ "a" "b" jwe) as (_ & _ & _ & Hother).
  exact (Hother Hne).
Defined.

Lemma metadata_ttl_run :
  KV_MINIMUM_TTL <= 60
  /\ exists kv',
       storeMetadata ∅ "a" sample_record 60 5 = Ok kv'
       /\ (forall t, loadMetadata kv' "a" t = if t <? 5 + 60 * 1000 then Some sample_record else None)
       /\ ("b" <> "a" -> forall t, loadMetadata kv' "b" t = loadMetadata ∅ "b" t)
       /\ (forall t, loadMetadata (deleteMetadata kv' "a") "a" t = None).
Proof.
  assert (Httl : KV_MINIMUM_TTL <= 60) by (vm_compute; discriminate).
  split; [exact Httl|].
  exact (proj2 (metadata_lives_for_its_ttl ∅ "a" "b" sample_record 60 5 Httl)).
Defined.

Lemma update_ttl_run :
  KV_MINIMUM_TTL * 1000 <= exp sample_record - 1500
  /\ exists kv',
       updateMetadata ∅ "a" sample_record 1500 1502 = Ok kv'
       /\ (forall t, loadMetadata kv' "a" t
                     = if t <? 1502 + (exp sample_record - 1500) / 1000 * 1000
                       then Some sample_record else None)
       /\ exp sample_record + (1502 - 1500) - 1000
          < 1502 + (exp sample_record - 1500) / 1000 * 1000
          <= exp sample_record + (1502 - 1500).
Proof.
  assert (Hleft : KV_MINIMUM_TTL * 1000 <= exp sample_record - 1500)
    by (vm_compute; discriminate).
  split; [exact Hleft|].
  exact (updateMetadata_keeps_the_expiry ∅ "a" sample_record 1500 1502 Hleft).
Defined.

Lemma rejected_creation_run :
  (CreateRequestSchema large_request = true
   /\ validateJweHeader platform (cr_payload large_request) = Ok tt
   /\ tier_bound platform large_request < Z.of_nat (String.length (cr_payload large_request)))
  /\ createExchange platform lib origin large_request (at_time 0) (counting 0) no_bindings
     = (json (error_only
                (if vr_trusted (proofResult platform large_request)
                 then "Payload too large for trusted tier (max 5MB)"
                 else "Payload too large for untrusted tier (max 10KB)")) 413, no_bindings).
Proof.
  assert (Hschema : CreateRequestSchema large_request = true) by (vm_compute; reflexivity).
  assert (Hheader : validateJweHeader platform (cr_payload large_request) = Ok tt)
    by (vm_compute; reflexivity).
  assert (Hsize : tier_bound platform large_request
                  < Z.of_nat (String.length (cr_payload large_request)))
    by (vm_compute; reflexivity).
  split; [repeat split; assumption|].
  destruct (rejected_creation_stores_nothing platform lib origin large_request (at_time 0)
              (counting 0) no_bindings) as (_ & _ & Hlarge).
  exact (Hlarge Hschema Hheader Hsize).
Defined.

Lemma trust_fields_run :
  exists r,
    fst (createExchange platform lib origin trusted_request (at_time 7) (counting 0) no_bindings)
    = json (CreateBody r) 201
    /\ (res_trusted r = true <-> exists i, res_iss r = Some i)
    /\ res_passcode r = None.
Proof.
  assert (Hsize : Z.of_nat (String.length (cr_payload trusted_request))
                  <= tier_bound platform trusted_request) by (vm_compute; discriminate).
  assert (Httl : KV_MINIMUM_TTL <= tier_lifetime platform trusted_request)
    by (vm_compute; discriminate).
  pose proof (f_equal fst
                (createExchange_accepted platform lib origin trusted_request (at_time 7)
                   (counting 0) no_bindings eq_refl eq_refl Hsize Httl)) as Hanswer.
  cbv zeta in Hanswer. cbn [fst] in Hanswer.
  eexists. split; [exact Hanswer|].
  destruct (creation_answer_and_record_agree platform lib origin trusted_request (at_time 7)
              (counting 0) no_bindings _ Hanswer) as (Hiff & _ & _ & Hnone & _).
  split; [exact Hiff | exact Hnone].
Defined.

Lemma delivery_run :
  status (fst (retrieveManifest lib (id_of open_request) anonymous (reading 5)
                 (after open_request (at_time 0)))) = 200
  /\ snd (retrieveManifest lib (id_of open_request) anonymous (reading 5)
            (after open_request (at_time 0)))
     = after open_request (at_time 0).
Proof.
  assert (H200 : status (fst (retrieveManifest lib (id_of open_request) anonymous (reading 5)
                                (after open_request (at_time 0)))) = 200)
    by (vm_compute; reflexivity).
  split; [exact H200|].
  exact (proj1 (delivery_is_read_only lib (id_of open_request) anonymous (reading 5)
                  (after open_request (at_time 0)) H200)).
Defined.

Lemma purge_run :
  (RetrieveParamsSchema (id_of minute_request) = true
   /\ RetrieveRequestSchema anonymous = true)
  /\ EXCHANGE_KV (snd (retrieveManifest lib (id_of minute_request) anonymous (reading 60002)
                         (after minute_request late_write)))
       !! metadata_key (id_of minute_request) = None
  /\ loadPayload
       (EXCHANGE_BUCKET (snd (retrieveManifest lib (id_of minute_request) anonymous
                                (reading 60002) (after minute_request late_write))))
       (id_of minute_request) = None.
Proof.
  split; [split; reflexivity|].
  edestruct (expired_or_locked_record_is_purged lib (id_of minute_request) anonymous
               (reading 60002) (after minute_request late_write))
    as (_ & Hrecord & Hblob & _).
  - reflexivity.
  - reflexivity.
  - vm_compute. reflexivity.
  - left. vm_compute. reflexivity.
  - split; [exact Hrecord | exact Hblob].
Defined.


Lemma protected_delivery_run :
  (CreateRequestSchema protected_request = true
   /\ validateJweHeader platform (cr_payload protected_request) = Ok tt
   /\ Z.of_nat (String.length (cr_payload protected_request))
      <= tier_bound platform protected_request
   /\ KV_MINIMUM_TTL <= tier_lifetime platform protected_request
   /\ cr_passcode protected_request = Some "482910"
   /\ RetrieveRequestSchema (with_passcode "482910") = true
   /\ rm_passcode (with_passcode "482910") = Some "482910"
   /\ rc_get (reading 5) < cc_put (at_time 0) + tier_lifetime platform protected_request * 1000
   /\ rc_check (reading 5)
      <= cc_expiry (at_time 0) + tier_lifetime platform protected_request * 1000)
  /\ retrieveManifest (Noble.module platform)
       (drawn_id (Noble.module platform) protected_request (counting 0))
       (with_passcode "482910") (reading 5)
       (snd (createExchange platform (Noble.module platform) origin protected_request
               (at_time 0) (counting 0) no_bindings))
     = (json (manifest_of (cr_payload protected_request)) 200,
        snd (createExchange platform (Noble.module platform) origin protected_request
               (at_time 0) (counting 0) no_bindings)).
Proof.
  assert (Hsize : Z.of_nat (String.length (cr_payload protected_request))
                  <= tier_bound platform protected_request) by (vm_compute; discriminate).
  assert (Httl : KV_MINIMUM_TTL <= tier_lifetime platform protected_request)
    by (vm_compute; discriminate).
  assert (Hget : rc_get (reading 5)
                 < cc_put (at_time 0) + tier_lifetime platform protected_request * 1000)
    by (vm_compute; reflexivity).
  assert (Hcheck : rc_check (reading 5)
                   <= cc_expiry (at_time 0) + tier_lifetime platform protected_request * 1000)
    by (vm_compute; discriminate).
  split; [repeat split; assumption|].
  destruct (passcode_protected_delivery platform origin protected_request (at_time 0) (counting 0)
              no_bindings "482910" (with_passcode "482910") (reading 5)
              eq_refl eq_refl Hsize Httl eq_refl eq_refl eq_refl Hget Hcheck)
    as (_ & _ & Hback).
  exact Hback.
Defined.

Lemma reachable_run :
  fst (retrieveManifest lib (id_of protected_request) (with_passcode "0000") (reading 6)
         (snd (serve platform lib one_failure empty_bindings)))
  = json (ErrorBody {| error := "Invalid passcode";
                       remainingAttempts := Some 8;
                       authRequired := None |}) 401
  /\ 0 <= 8 < MAX_ATTEMPTS.
Proof.
  assert (Hanswer :
    fst (retrieveManifest lib (id_of protected_request) (with_passcode "0000") (reading 6)
           (snd (serve platform lib one_failure empty_bindings)))
    = json (ErrorBody {| error := "Invalid passcode";
                         remainingAttempts := Some 8;
                         authRequired := None |}) 401) by (vm_compute; reflexivity).
  split; [exact Hanswer|].
  destruct (reachable_bindings_are_consistent platform lib one_failure) as (_ & _ & Hrange).
  exact (Hrange _ _ _ _ Hanswer).
Defined.

End EdgeRuns.
